(** * BAT: the parallelization test

    An embedding of [test/parallel_TEST.cxx]: the classes [Output] and
    [RunComparison] with its nested [Config] and [DataHolder], over a small
    model of the ROOT tree interface the test reads its data through.  The
    sampler the test drives ([BCEngineMCMC], reached through [GaussModel])
    is not part of the files at hand and is not modelled. *)

From Stdlib Require Import ZArith List String Ascii Bool Lia PeanoNat.
From Stdlib Require Import Floats DecimalString DecimalNat.
Import ListNotations.

Set Implicit Arguments.

(* ================================================================= *)
(** * test/parallel_TEST.cxx *)
(* ================================================================= *)

Module parallel_TEST.

Local Open Scope string_scope.
Local Open Scope Z_scope.

(** C++ exceptions that end a call early. [TEST_CHECK], [TEST_CHECK_EQUAL] and
    [TEST_CHECK_FAILED] (test.h) throw [TestCaseFailedException]; [Check] is
    declared [throw(TestCaseFailedException)].  [std::vector::at] throws
    [out_of_range], [std::vector::resize] throws [length_error].  Reading a
    vector past its end with [operator[]] has no defined behaviour. *)
Inductive Exception : Type :=
| TestCaseFailedException (message : string)
| out_of_range
| length_error
| undefined_behaviour.

Inductive Outcome (A : Type) : Type :=
| Returned (a : A)
| Threw (e : Exception).

Arguments Returned {A} a.
Arguments Threw {A} e.

(** Modelled from the spec: [test::stringify] is declared in test.h, which
    is not among the files; on an unsigned number it is taken to give the
    decimal digits, as the branch names [Parameter0], [Parameter1], ...
    need. *)
Definition stringify (k : nat) : string :=
  NilEmpty.string_of_uint (Nat.to_uint k).

(** [std::string parName = "Parameter" + stringify(k)]. *)
Definition parName (k : nat) : string := "Parameter" ++ stringify k.

(* ----------------------------------------------------------------- *)
(** ** class Output *)

(** [Output] has no data members. *)
Record Output : Type := mkOutput { }.

(** What [PrintValues] writes to [std::cout], one constructor per line. *)
Inductive Printed : Type :=
| previous_time_line (previous_time : float)
| difference_line (diff : float)
| improvement_factor_line (ratio : float).

(** The part of the process state [PrintValues] touches: its function-static
    vector [real_time_array] (one object for the whole process, created empty
    when control first passes its declaration) and the output stream. *)
Record Process : Type := mkProcess {
  real_time_array : list float;
  cout : list Printed
}.

Definition process_start : Process := mkProcess [] [].

(** [size_t] arithmetic of a 64-bit target. *)
Definition size_t_wrap (z : Z) : Z := z mod 2 ^ 64.

(** [std::vector::at]. *)
Definition at_ (v : list float) (i : Z) : Outcome float :=
  match nth_error v (Z.to_nat i) with
  | Some x => Returned x
  | None => Threw out_of_range
  end.

(** [void Output::PrintValues(const double& time)]. *)
Definition PrintValues (this : Output) (time : float) (st : Process)
  : Outcome Process :=
  let array := (real_time_array st ++ [time])%list in
  let size := Z.of_nat (List.length array) in
  if size mod 2 =? 1 then Returned (mkProcess array (cout st))
  else
    match at_ array (size_t_wrap (size - 2)) with
    | Threw e => Threw e
    | Returned previous_time =>
        let diff := (previous_time - time)%float in
        let ratio := (previous_time / time)%float in
        Returned (mkProcess array
                    (cout st ++ [previous_time_line previous_time;
                                 difference_line diff;
                                 improvement_factor_line ratio])%list)
    end.

(** A run of the process as far as [PrintValues] is concerned: a sequence of
    calls, each on some [Output] object. *)
Fixpoint PrintValues_calls (calls : list (Output * float)) (st : Process)
  : Outcome Process :=
  match calls with
  | [] => Returned st
  | (op, time) :: rest =>
      match PrintValues op time st with
      | Returned st' => PrintValues_calls rest st'
      | Threw e => Threw e
      end
  end.

(* ----------------------------------------------------------------- *)
(** ** ROOT's TTree, as far as the test uses it *)

(** A value stored in a branch: [unsigned], [int] or [double]. *)
Inductive Value : Type :=
| VUInt (n : Z)
| VInt (n : Z)
| VDouble (x : float).

(** A tree: its branches by name, and its entries, each holding one value
    per branch in the order of the branches. *)
Record TTree : Type := mkTTree {
  branch_names : list string;
  entries : list (list Value)
}.

Definition GetNbranches (t : TTree) : Z := Z.of_nat (List.length (branch_names t)).
Definition GetEntries (t : TTree) : Z := Z.of_nat (List.length (entries t)).

(** A file: the objects it holds, by name. *)
Definition TFile : Type := list (string * TTree).

Fixpoint GetObject (f : TFile) (name : string) : option TTree :=
  match f with
  | [] => None
  | (n, t) :: rest => if String.eqb n name then Some t else GetObject rest name
  end.

(** [struct DataHolder]: the variables the branches are read into. *)
Record DataHolder : Type := mkDataHolder {
  fMCMCNIterations : Z;
  fMCMCprob : float;
  fMCMCPhase : Z;
  fMCMCChain : Z;
  parameters : list float
}.

(** The addresses handed to [SetBranchAddress]: a member of the holder, or
    an element of its vector. *)
Inductive Address : Type :=
| addr_fMCMCNIterations
| addr_fMCMCprob
| addr_fMCMCPhase
| addr_fMCMCChain
| addr_parameters (k : nat).

(** The addresses a tree has been given, by branch name. *)
Definition Bindings : Type := list (string * Address).

Definition kMatch : Z := 0.
Definition kMissingBranch : Z := -5.

(** [TTree::SetBranchAddress]: a branch of that name gets the address; for
    an unknown name the call reports [kMissingBranch] and binds nothing. *)
Definition SetBranchAddress (t : TTree) (bname : string) (a : Address)
  (b : Bindings) : Z * Bindings :=
  if existsb (String.eqb bname) (branch_names t)
  then (kMatch, (bname, a) :: b)
  else (kMissingBranch, b).

Fixpoint address_of (bname : string) (b : Bindings) : option Address :=
  match b with
  | [] => None
  | (n, a) :: rest => if String.eqb n bname then Some a else address_of bname rest
  end.

Fixpoint set_nth (k : nat) (x : float) (v : list float) : list float :=
  match v, k with
  | [], _ => []
  | _ :: tl, O => x :: tl
  | y :: tl, S k' => y :: set_nth k' x tl
  end.

(** Writing a branch's value through its address (a value of another type
    than the variable's is left unread). *)
Definition store (a : Address) (v : Value) (d : DataHolder) : DataHolder :=
  match a, v with
  | addr_fMCMCNIterations, VUInt n =>
      mkDataHolder n (fMCMCprob d) (fMCMCPhase d) (fMCMCChain d) (parameters d)
  | addr_fMCMCprob, VDouble x =>
      mkDataHolder (fMCMCNIterations d) x (fMCMCPhase d) (fMCMCChain d) (parameters d)
  | addr_fMCMCPhase, VInt n =>
      mkDataHolder (fMCMCNIterations d) (fMCMCprob d) n (fMCMCChain d) (parameters d)
  | addr_fMCMCChain, VUInt n =>
      mkDataHolder (fMCMCNIterations d) (fMCMCprob d) (fMCMCPhase d) n (parameters d)
  | addr_parameters k, VDouble x =>
      mkDataHolder (fMCMCNIterations d) (fMCMCprob d) (fMCMCPhase d) (fMCMCChain d)
        (set_nth k x (parameters d))
  | _, _ => d
  end.

Fixpoint load_row (names : list string) (row : list Value) (b : Bindings)
  (d : DataHolder) : DataHolder :=
  match names, row with
  | n :: names', v :: row' =>
      load_row names' row' b
        (match address_of n b with Some a => store a v d | None => d end)
  | _, _ => d
  end.

(** [TTree::GetEntry]: entry [entry] is copied into the bound variables; an
    index outside the tree reads nothing and leaves them as they are. *)
Definition GetEntry (t : TTree) (b : Bindings) (entry : Z) (d : DataHolder)
  : DataHolder :=
  if entry <? 0 then d
  else match nth_error (entries t) (Z.to_nat entry) with
       | Some row => load_row (branch_names t) row b d
       | None => d
       end.

(* ----------------------------------------------------------------- *)
(** ** class RunComparison *)

(** [struct Config], with the defaults of its constructor.  [BAT_TESTDIR] is
    a macro of the build. *)
Record Config : Type := mkConfig {
  num_chains : Z;
  num_entries : Z;
  num_parameters : Z;
  num_iterations : Z;
  plot : bool;
  lag : Z;
  rootFileNameSerial : string;
  rootFileNameParallel : string
}.

Definition Default (BAT_TESTDIR : string) : Config :=
  mkConfig 4 300 1 100 false 100000
    (BAT_TESTDIR ++ "parallel_TEST_GaussModelSerial.root")
    (BAT_TESTDIR ++ "parallel_TEST_GaussModelParallel.root").

(** The configuration [ParallelTest::run] passes on. *)
Definition run_config (BAT_TESTDIR : string) : Config :=
  let c := Default BAT_TESTDIR in
  mkConfig 4 (num_entries c) 1 (num_iterations c) (plot c) 50000
    (rootFileNameSerial c) (rootFileNameParallel c).

(** [std::vector<double>::resize]: cut, or fill with zeros. *)
Definition resize (n : nat) (v : list float) : list float :=
  (firstn n v ++ repeat 0%float (n - List.length v))%list.

(** Largest size a [std::vector<double>] takes on a 64-bit target. *)
Definition max_size : Z := 2 ^ 60 - 1.

(** A [DataHolder] under construction: its members, the addresses given to
    the tree so far, and what each [SetBranchAddress] call reported. *)
Record Constructed : Type := mkConstructed {
  data : DataHolder;
  addresses : Bindings;
  statuses : list (string * Z)
}.

Definition bind (t : TTree) (bname : string) (a : Address) (c : Constructed)
  : Constructed :=
  let (status, b) := SetBranchAddress t bname a (addresses c) in
  mkConstructed (data c) b (statuses c ++ [(bname, status)]).

Definition with_data (c : Constructed) (d : DataHolder) : Constructed :=
  mkConstructed d (addresses c) (statuses c).

Definition with_parameters (d : DataHolder) (v : list float) : DataHolder :=
  mkDataHolder (fMCMCNIterations d) (fMCMCprob d) (fMCMCPhase d) (fMCMCChain d) v.

(** [DataHolder::DataHolder(TTree* tree)].  The four scalar members are not
    initialised by the constructor: [uninitialised] stands for whatever they
    hold before the first entry is read; the vector starts empty. *)
Definition DataHolder_ctor (tree : option TTree) (uninitialised : DataHolder)
  : Outcome Constructed :=
  match tree with
  | None => Threw (TestCaseFailedException "tree")
  | Some t =>
      let c := mkConstructed (with_parameters uninitialised []) [] [] in
      let c := bind t "Iteration" addr_fMCMCNIterations c in
      let c := bind t "LogProbability" addr_fMCMCprob c in
      let c := bind t "Phase" addr_fMCMCPhase c in
      let c := bind t "Chain" addr_fMCMCChain c in
      let c := with_data c (GetEntry t (addresses c) 0 (data c)) in
      let n := size_t_wrap (GetNbranches t - 3) in
      if n >? max_size then Threw length_error
      else
        let d := with_parameters (data c) (resize (Z.to_nat n) (parameters (data c))) in
        Returned
          (fold_left
             (fun c k => bind t (parName k) (addr_parameters k) c)
             (seq 0 (List.length (parameters d)))
             (with_data c d))
  end.

(** Modelled from the spec: the macro [TEST_CHECK_EQUAL(a, b)] of test.h,
    which is not among the files: it throws [TestCaseFailedException]
    unless [a == b], as the exception specification of [Check] and the
    uses of [TEST_CHECK_FAILED] without a [return] show. *)
Definition TEST_CHECK_EQUAL (equal : bool) (what : string) : Outcome unit :=
  if equal then Returned tt else Threw (TestCaseFailedException what).

(** The loop over each dimension inside one round of the comparison.
    [operator[]] is unchecked: a read of [twoData.parameters[k]] past the
    end has no defined behaviour, and the compiled test goes on with
    whatever lies behind the vector.  The model does not follow it there:
    [undefined_behaviour] marks the round as one it says nothing more
    about.  The read is past the end only when the first tree has more
    parameter branches than the second. *)
Fixpoint check_parameters (ks : list nat) (oneData twoData : DataHolder)
  : Outcome unit :=
  match ks with
  | [] => Returned tt
  | k :: ks' =>
      match nth_error (parameters oneData) k, nth_error (parameters twoData) k with
      | Some x, Some y =>
          match TEST_CHECK_EQUAL (x =? y)%float "parameters[k]" with
          | Returned _ => check_parameters ks' oneData twoData
          | Threw e => Threw e
          end
      | _, _ => Threw undefined_behaviour
      end
  end.

Definition and_then (r : Outcome unit) (k : Outcome unit) : Outcome unit :=
  match r with Returned _ => k | Threw e => Threw e end.

(** The checks of one round, on the variables as the two [GetEntry] calls
    left them. *)
Definition check_round (oneData twoData : DataHolder) : Outcome unit :=
  and_then (check_parameters (seq 0 (List.length (parameters oneData))) oneData twoData)
 (and_then (TEST_CHECK_EQUAL (fMCMCprob oneData =? fMCMCprob twoData)%float "fMCMCprob")
 (and_then (TEST_CHECK_EQUAL (fMCMCNIterations oneData =? fMCMCNIterations twoData) "fMCMCNIterations")
 (and_then (TEST_CHECK_EQUAL (fMCMCPhase oneData =? fMCMCPhase twoData) "fMCMCPhase")
           (TEST_CHECK_EQUAL (fMCMCChain oneData =? fMCMCChain twoData) "fMCMCChain")))).

(** The two trees of [Check]. *)
Inductive Which : Type := one | two.

(** What [Check] did: the [GetEntry] calls of its comparison loop, in order,
    and how it ended. *)
Record Checked : Type := mkChecked {
  calls : list (Which * Z);
  result : Outcome unit
}.

(** The loop [for (long long entry = 0; entry <= nEntries1; ++entry)] from
    index [entry] on.  [fuel] bounds the number of rounds; [None] when it
    is used up before the loop ends. *)
Fixpoint compare_chains (fuel : nat) (t1 t2 : TTree) (b1 b2 : Bindings)
  (nEntries1 : Z) (entry : Z) (oneData twoData : DataHolder) : option Checked :=
  match fuel with
  | O => None
  | S fuel' =>
      if entry <=? nEntries1 then
        let oneData := GetEntry t1 b1 entry oneData in
        let twoData := GetEntry t2 b2 entry twoData in
        match check_round oneData twoData with
        | Threw e => Some (mkChecked [(one, entry); (two, entry)] (Threw e))
        | Returned _ =>
            match compare_chains fuel' t1 t2 b1 b2 nEntries1 (entry + 1) oneData twoData with
            | Some c => Some (mkChecked ((one, entry) :: (two, entry) :: calls c) (result c))
            | None => None
            end
        end
      else Some (mkChecked [] (Returned tt))
  end.

(** The files on disk, by name; [TFile::Open] gives a null pointer for a
    file that cannot be opened. *)
Definition FileSystem : Type := list (string * TFile).

Fixpoint Open (fs : FileSystem) (name : string) : option TFile :=
  match fs with
  | [] => None
  | (n, f) :: rest => if String.eqb n name then Some f else Open rest name
  end.

Definition failed (message : string) : option Checked :=
  Some (mkChecked [] (Threw (TestCaseFailedException message))).

(** [void RunComparison::Check()].  [uninitialised1] and [uninitialised2]
    are the initial contents of the two holders' scalar members.  Closing
    and removing the files after the loop is left out.  [Check] is declared
    [throw(TestCaseFailedException)]: the [std::length_error] of a holder's
    constructor, on a tree with fewer than three branches, does not leave
    it as an exception but ends the program through [std::unexpected]; the
    result records the exception that was thrown inside. *)
Definition Check (config : Config) (fs : FileSystem)
  (uninitialised1 uninitialised2 : DataHolder) : option Checked :=
  match Open fs (rootFileNameParallel config) with
  | None => failed ("Could not open" ++ rootFileNameParallel config)
  | Some rfile1 =>
  match Open fs (rootFileNameSerial config) with
  | None => failed ("Could not open" ++ rootFileNameSerial config)
  | Some rfile2 =>
  match GetObject rfile1 "Parallelevaluation_mcmc" with
  | None => failed ("Could not locate tree in " ++ rootFileNameParallel config)
  | Some t1 =>
  match GetObject rfile2 "Serialevaluation_mcmc" with
  | None => failed ("Could not locate tree in " ++ rootFileNameSerial config)
  | Some t2 =>
  match DataHolder_ctor (Some t1) uninitialised1 with
  | Threw e => Some (mkChecked [] (Threw e))
  | Returned c1 =>
  match DataHolder_ctor (Some t2) uninitialised2 with
  | Threw e => Some (mkChecked [] (Threw e))
  | Returned c2 =>
      let nEntries1 := GetEntries t1 in
      let nEntries2 := GetEntries t2 in
      match TEST_CHECK_EQUAL (nEntries1 =? nEntries2) "nEntries1" with
      | Threw e => Some (mkChecked [] (Threw e))
      | Returned _ =>
          compare_chains (Z.to_nat nEntries1 + 2) t1 t2 (addresses c1) (addresses c2)
            nEntries1 0 (data c1) (data c2)
      end
  end end end end end end.

(** The number of rounds of the comparison loop that were entered. *)
Definition rounds (c : Checked) : nat := List.length (calls c) / 2.

(* ----------------------------------------------------------------- *)
(** ** CreateOutput and the constructor of RunComparison *)

Section Engine.

(** What [CreateOutput] asks of the engine: this many threads, a model of
    that name with [num_parameters] parameters and the given lag, medium
    precision with [num_iterations] iterations in the main run on
    [num_chains] chains, the random seed. *)
Record Request : Type := mkRequest {
  threads : Z;
  model_name : string;
  model_parameters : Z;
  model_lag : Z;
  NIterationsRun : Z;
  NChains : Z;
  RandomSeed : Z
}.

(** [GaussModel] and [MarginalizeAll] are not part of this file: the run
    is taken as given, by the file it writes and the time the stopwatch
    shows. *)
Variable MarginalizeAll : Request -> TFile * float.

Definition seed : Z := 11.

(** [void RunComparison::CreateOutput(const bool& parallelization)]; the
    plots and the log file are left out. *)
Definition CreateOutput (config : Config) (parallelization : bool)
  (st : FileSystem * Process) : Outcome (FileSystem * Process) :=
  let op := mkOutput in
  let request :=
    mkRequest (if parallelization then num_chains config else 1)
      (if parallelization then "Parallel evaluation" else "Serial evaluation")
      (num_parameters config) (lag config)
      (num_iterations config) (num_chains config) seed in
  let (file, real_time) := MarginalizeAll request in
  let fs := ((if parallelization then rootFileNameParallel config
              else rootFileNameSerial config), file) :: fst st in
  match PrintValues op real_time (snd st) with
  | Returned process => Returned (fs, process)
  | Threw e => Threw e
  end.

(** [RunComparison::RunComparison(const Config&)]: the serial run, the
    parallel run, the comparison. *)
Definition RunComparison (config : Config) (st : FileSystem * Process)
  (uninitialised1 uninitialised2 : DataHolder) : option (Outcome Process) :=
  match CreateOutput config false st with
  | Threw e => Some (Threw e)
  | Returned st1 =>
      match CreateOutput config true st1 with
      | Threw e => Some (Threw e)
      | Returned st2 =>
          match Check config (fst st2) uninitialised1 uninitialised2 with
          | None => None
          | Some c => Some (match result c with
                            | Returned _ => Returned (snd st2)
                            | Threw e => Threw e
                            end)
          end
      end
  end.

End Engine.

(* ----------------------------------------------------------------- *)
(** ** The trees the test reads *)

(** One stored record of a chain, as the test reads it back. *)
Record Entry : Type := mkEntry {
  entry_Chain : Z;
  entry_Iteration : Z;
  entry_Phase : Z;
  entry_LogProbability : float;
  entry_Parameters : list float
}.

(** Modelled from the spec: the tree a run with [p] parameters writes (the
    engine that writes it is not among the files): one branch per field of
    a SampleRecord, under the names the holder binds them by: the four
    scalar branches, and [Parameter0] .. [Parameter(p-1)]. *)
Definition output_branches (p : nat) : list string :=
  (["Chain"; "Iteration"; "Phase"; "LogProbability"]
   ++ map parName (seq 0 p))%list.

Definition output_row (p : nat) (e : Entry) : list Value :=
  ([VUInt (entry_Chain e); VUInt (entry_Iteration e); VInt (entry_Phase e);
    VDouble (entry_LogProbability e)]
   ++ map (fun k => VDouble (nth k (entry_Parameters e) 0%float)) (seq 0 p))%list.

Definition output_tree (p : nat) (es : list Entry) : TTree :=
  mkTTree (output_branches p) (map (output_row p) es).

(** [==] on two stored records, field by field as [Check] compares them. *)
Definition entries_equal (p : nat) (e1 e2 : Entry) : bool :=
  forallb (fun k => (nth k (entry_Parameters e1) 0 =? nth k (entry_Parameters e2) 0)%float)
    (seq 0 p)
  && (entry_LogProbability e1 =? entry_LogProbability e2)%float
  && (entry_Iteration e1 =? entry_Iteration e2)
  && (entry_Phase e1 =? entry_Phase e2)
  && (entry_Chain e1 =? entry_Chain e2).

(** The files as the two runs leave them. *)
Definition output_files (config : Config) (p : nat) (parallel serial : list Entry)
  : FileSystem :=
  [(rootFileNameParallel config, [("Parallelevaluation_mcmc", output_tree p parallel)]);
   (rootFileNameSerial config, [("Serialevaluation_mcmc", output_tree p serial)])].

(** What the constructor leaves behind on such a tree: the addresses the
    tree holds, and what the [SetBranchAddress] calls reported, in order. *)
Definition bound_addresses (p : nat) : Bindings :=
  (rev (map (fun k => (parName k, addr_parameters k)) (seq 0 p))
   ++ [("Chain", addr_fMCMCChain); ("Phase", addr_fMCMCPhase);
       ("LogProbability", addr_fMCMCprob); ("Iteration", addr_fMCMCNIterations)])%list.

Definition reported (p : nat) : list (string * Z) :=
  ([("Iteration", kMatch); ("LogProbability", kMatch); ("Phase", kMatch); ("Chain", kMatch)]
   ++ map (fun k => (parName k, kMatch)) (seq 0 p)
   ++ [(parName p, kMissingBranch)])%list.

(** The scalar members after the constructor's [GetEntry(0)]. *)
Definition first_read (es : list Entry) (uninitialised : DataHolder) : DataHolder :=
  match es with
  | [] => with_parameters uninitialised []
  | e :: _ => mkDataHolder (entry_Iteration e) (entry_LogProbability e) (entry_Phase e)
                (entry_Chain e) []
  end.

(** The vector of a holder after an entry of a [p]-parameter tree was read:
    the [p] stored values, and the spare last element no branch writes. *)
Definition padded (p : nat) (e : Entry) : list float :=
  (map (fun k => nth k (entry_Parameters e) 0%float) (seq 0 p) ++ [0%float])%list.

(** The holder after reading entry [e]. *)
Definition view (p : nat) (e : Entry) : DataHolder :=
  mkDataHolder (entry_Iteration e) (entry_LogProbability e) (entry_Phase e)
    (entry_Chain e) (padded p e).

(** The vector has [p + 1] elements and the spare one is still zero. *)
Definition spare_zero (p : nat) (d : DataHolder) : Prop :=
  exists vals, parameters d = (vals ++ [0%float])%list /\ List.length vals = p.

(** How many leading pairs of stored records agree in every compared field:
    the index of the first differing pair, or the number of pairs. *)
Fixpoint agreeing_prefix (p : nat) (es1 es2 : list Entry) : nat :=
  match es1, es2 with
  | e1 :: r1, e2 :: r2 =>
      if entries_equal p e1 e2 then S (agreeing_prefix p r1 r2) else O
  | _, _ => O
  end.

(** How the loop ends on the stored records still to be compared, from
    holders [d1], [d2]: at the first differing pair with that round's failed
    check, otherwise with the checks of the round past the last record. *)
Fixpoint outcome_from (p : nat) (es1 es2 : list Entry) (d1 d2 : DataHolder)
  : Outcome unit :=
  match es1, es2 with
  | e1 :: r1, e2 :: r2 =>
      if entries_equal p e1 e2 then outcome_from p r1 r2 (view p e1) (view p e2)
      else check_round (view p e1) (view p e2)
  | _, _ => check_round d1 d2
  end.

(** The [GetEntry] calls of [n] rounds starting at index [i]. *)
Definition calls_from (i n : nat) : list (Which * Z) :=
  flat_map (fun k => [(one, Z.of_nat k); (two, Z.of_nat k)]) (seq i n).

(** The lines [PrintValues] has written once the times [times] were passed
    to it: one block per completed pair. *)
Fixpoint printed_pairs (times : list float) : list Printed :=
  match times with
  | previous_time :: time :: rest =>
      previous_time_line previous_time
      :: difference_line (previous_time - time)%float
      :: improvement_factor_line (previous_time / time)%float
      :: printed_pairs rest
  | _ => []
  end.


(** Definitions for the further properties of the test. *)

(** The number of entries of the tree [Check] takes from the parallel
    file; 0 when the file or the tree is not there. *)
Definition parallel_entries (config : Config) (fs : FileSystem) : nat :=
  match Open fs (rootFileNameParallel config) with
  | Some rfile1 =>
      match GetObject rfile1 "Parallelevaluation_mcmc" with
      | Some t1 => List.length (entries t1)
      | None => O
      end
  | None => O
  end.

(** A record whose log-probability is not a number. *)
Definition undefined_entry : Entry := mkEntry 0 1 1 nan [0.25%float].

(** The files of a parallel run with [p1] parameters and a serial run with
    [p2]. *)
Definition output_files_of (config : Config) (p1 p2 : nat) (parallel serial : list Entry)
  : FileSystem :=
  [(rootFileNameParallel config, [("Parallelevaluation_mcmc", output_tree p1 parallel)]);
   (rootFileNameSerial config, [("Serialevaluation_mcmc", output_tree p2 serial)])].

(** The holders with which the comparison loop starts. *)
Definition initial_holder (p : nat) (es : list Entry) (u : DataHolder) : DataHolder :=
  with_parameters (first_read es u) (repeat 0%float (p + 1)).

(** How the loop ends on trees of [p1] and [p2] parameters: with the first
    round whose checks fail, otherwise with the checks of the round past the
    last record. *)
Fixpoint verdict_from (p1 p2 : nat) (es1 es2 : list Entry) (d1 d2 : DataHolder)
  : Outcome unit :=
  match es1, es2 with
  | e1 :: r1, e2 :: r2 =>
      match check_round (view p1 e1) (view p2 e2) with
      | Returned _ => verdict_from p1 p2 r1 r2 (view p1 e1) (view p2 e2)
      | Threw e => Threw e
      end
  | _, _ => check_round d1 d2
  end.

(** What a round compares when the serial tree has more parameters than
    the [p] of the parallel tree: the [p] common parameters and the
    scalars, and the serial [Parameter p] against the spare element. *)
Definition agree_upto (p : nat) (e1 e2 : Entry) : bool :=
  entries_equal p e1 e2 && (0 =? nth p (entry_Parameters e2) 0)%float.

(** Sample records and holders for the closed examples. *)
Definition sample_entry : Entry := mkEntry 0 1 1 (-1.5)%float [0.25%float].
Definition other_entry : Entry := mkEntry 0 1 1 (-1.25)%float [0.25%float].
Definition blank_holder : DataHolder := mkDataHolder 0 0%float 0 0 [].

(** An engine for the closed examples: both runs store the same record. *)
Definition sample_engine (request : Request) : TFile * float :=
  if String.eqb (model_name request) "Serial evaluation"
  then ([("Serialevaluation_mcmc", output_tree 1 [sample_entry])], 8%float)
  else ([("Parallelevaluation_mcmc", output_tree 1 [sample_entry])], 2%float).

(* ----------------------------------------------------------------- *)
(** ** Facts about names and branches *)

Local Open Scope list_scope.

Lemma stringify_inj : forall j k, stringify j = stringify k -> j = k.
Proof.
  intros j k H. unfold stringify in H.
  apply Unsigned.to_uint_inj.
  assert (E : NilEmpty.uint_of_string (NilEmpty.string_of_uint (Nat.to_uint j))
              = NilEmpty.uint_of_string (NilEmpty.string_of_uint (Nat.to_uint k)))
    by (rewrite H; reflexivity).
  rewrite !NilEmpty.usu in E. congruence.
Qed.

Lemma parName_inj : forall j k, parName j = parName k -> j = k.
Proof.
  intros j k H. unfold parName in H. cbn in H.
  apply stringify_inj. congruence.
Qed.

Lemma parName_eqb : forall j k,
  String.eqb (parName j) (parName k) = Nat.eqb j k.
Proof.
  intros j k. destruct (Nat.eqb_spec j k) as [->|N].
  - apply String.eqb_refl.
  - apply String.eqb_neq. intro H. apply N, parName_inj, H.
Qed.

Lemma parName_missing : forall k p,
  existsb (String.eqb (parName k)) (map parName (seq 0 p)) = (k <? p)%nat.
Proof.
  intros k p. destruct (Nat.ltb_spec k p) as [L|L].
  - apply existsb_exists. exists (parName k). split.
    + apply in_map, in_seq. lia.
    + apply String.eqb_refl.
  - destruct (existsb _ _) eqn:E; [|reflexivity].
    apply existsb_exists in E. destruct E as [n [I E]].
    apply in_map_iff in I. destruct I as [j [<- I]].
    rewrite parName_eqb in E. apply Nat.eqb_eq in E. apply in_seq in I. lia.
Qed.

Lemma output_branches_has : forall k p,
  existsb (String.eqb (parName k)) (output_branches p) = (k <? p)%nat.
Proof.
  intros k p. unfold output_branches. rewrite existsb_app.
  rewrite parName_missing. reflexivity.
Qed.

Lemma GetNbranches_output_tree : forall p es,
  GetNbranches (output_tree p es) = Z.of_nat p + 4.
Proof.
  intros. unfold GetNbranches, output_tree, output_branches. cbn [branch_names].
  rewrite length_app, length_map, length_seq. cbn [List.length]. lia.
Qed.

(* ----------------------------------------------------------------- *)
(** ** The constructor of DataHolder *)

Lemma load_row_unbound : forall ks vs b d,
  (forall k, In k ks -> address_of (parName k) b = None) ->
  load_row (map parName ks) vs b d = d.
Proof.
  induction ks as [|k ks IH]; intros vs b d H; [reflexivity|].
  destruct vs as [|v vs]; [reflexivity|]. cbn [map load_row].
  rewrite (H k) by (left; reflexivity). apply IH. intros j Hj. apply H. right. exact Hj.
Qed.

Lemma size_t_wrap_small : forall z, 0 <= z < 2 ^ 64 -> size_t_wrap z = z.
Proof. intros z H. unfold size_t_wrap. apply Z.mod_small. exact H. Qed.

Lemma fold_bind_parameters : forall p t n a c,
  branch_names t = output_branches p ->
  (a + n <= p)%nat ->
  fold_left (fun c k => bind t (parName k) (addr_parameters k) c) (seq a n) c
  = mkConstructed (data c)
      (rev (map (fun k => (parName k, addr_parameters k)) (seq a n)) ++ addresses c)%list
      (statuses c ++ map (fun k => (parName k, kMatch)) (seq a n))%list.
Proof.
  intros p t n. induction n as [|n IH]; intros a c Hb Hle.
  - cbn. rewrite app_nil_r. destruct c; reflexivity.
  - cbn [seq fold_left]. rewrite IH by (auto; lia).
    unfold bind, SetBranchAddress. rewrite Hb, output_branches_has.
    replace (a <? p)%nat with true by (symmetry; apply Nat.ltb_lt; lia).
    cbn [data addresses statuses map rev]. f_equal.
    + rewrite <- app_assoc. reflexivity.
    + rewrite <- app_assoc. reflexivity.
Qed.

Lemma DataHolder_ctor_output_tree : forall p es uninitialised,
  Z.of_nat p + 4 <= 2 ^ 31 - 1 ->
  DataHolder_ctor (Some (output_tree p es)) uninitialised
  = Returned (mkConstructed
                (with_parameters (first_read es uninitialised) (repeat 0%float (p + 1)))
                (bound_addresses p) (reported p)).
Proof.
  intros p es u Hp. unfold DataHolder_ctor.
  rewrite GetNbranches_output_tree.
  rewrite size_t_wrap_small by lia.
  replace (Z.of_nat p + 4 - 3 >? max_size) with false
    by (symmetry; rewrite Z.gtb_ltb; apply Z.ltb_ge; unfold max_size; lia).
  replace (Z.to_nat (Z.of_nat p + 4 - 3)) with (p + 1)%nat by lia.
  assert (Hfix : forall c name a,
    existsb (String.eqb name) (output_branches p) = true ->
    bind (output_tree p es) name a c
    = mkConstructed (data c) ((name, a) :: addresses c) (statuses c ++ [(name, kMatch)])%list).
  { intros c name a E. unfold bind, SetBranchAddress. cbn [branch_names output_tree].
    rewrite E. reflexivity. }
  rewrite !Hfix by reflexivity.
  cbn [data addresses statuses app].
  set (b4 := [("Chain", addr_fMCMCChain); ("Phase", addr_fMCMCPhase);
       ("LogProbability", addr_fMCMCprob); ("Iteration", addr_fMCMCNIterations)]).
  assert (Hread : GetEntry (output_tree p es) b4 0
                    (mkDataHolder (fMCMCNIterations u) (fMCMCprob u) (fMCMCPhase u) (fMCMCChain u) [])
                  = first_read es u).
  { unfold GetEntry. cbn [Z.ltb Z.compare Z.to_nat entries output_tree nth_error].
    destruct es as [|e es']; [reflexivity|].
    cbn [map nth_error output_row app].
    change (branch_names (output_tree p (e :: es')))
      with ("Chain" :: "Iteration" :: "Phase" :: "LogProbability" :: map parName (seq 0 p)).
    subst b4. cbn -[parName].
    rewrite load_row_unbound; [reflexivity|]. intros k _. reflexivity. }
  change (mkDataHolder (fMCMCNIterations u) (fMCMCprob u) (fMCMCPhase u) (fMCMCChain u) [])
    with (with_parameters u []) in Hread.
  rewrite Hread. unfold with_data. cbn [data addresses statuses].
  unfold resize. replace (parameters (first_read es u)) with (@nil float)
    by (destruct es; reflexivity).
  rewrite firstn_nil. cbn [app List.length]. rewrite Nat.sub_0_r.
  unfold with_parameters at 1. cbn [parameters]. rewrite repeat_length.
  replace (seq 0 (p + 1)) with (seq 0 p ++ [p])%list
    by (rewrite Nat.add_1_r, seq_S; reflexivity).
  rewrite fold_left_app.
  rewrite fold_bind_parameters with (p := p) by (auto; lia).
  cbn [fold_left data addresses statuses Nat.add].
  unfold bind, SetBranchAddress. cbn [branch_names output_tree addresses statuses data].
  rewrite output_branches_has, Nat.ltb_irrefl.
  unfold bound_addresses, reported. reflexivity.
Qed.








(* ----------------------------------------------------------------- *)
(** ** Reading entries and the comparison loop *)

Lemma address_of_skip : forall name (l rest : Bindings),
  Forall (fun na => String.eqb (fst na) name = false) l ->
  address_of name (l ++ rest) = address_of name rest.
Proof.
  intros name l rest H. induction H as [|[n a] l Hn Hl IH]; [reflexivity|].
  cbn [app address_of]. cbn [fst] in Hn. rewrite Hn. exact IH.
Qed.

Lemma address_of_fixed : forall name p,
  (forall k, String.eqb (parName k) name = false) ->
  address_of name (bound_addresses p)
  = address_of name [("Chain", addr_fMCMCChain); ("Phase", addr_fMCMCPhase);
       ("LogProbability", addr_fMCMCprob); ("Iteration", addr_fMCMCNIterations)].
Proof.
  intros name p H. unfold bound_addresses. apply address_of_skip.
  apply Forall_rev, Forall_map, Forall_forall. intros k _. cbn [fst]. apply H.
Qed.

Lemma address_of_parName : forall p k, (k < p)%nat ->
  address_of (parName k) (bound_addresses p) = Some (addr_parameters k).
Proof.
  unfold bound_addresses. induction p as [|p IH]; intros k Hk; [lia|].
  rewrite seq_S, map_app, rev_app_distr. cbn [map rev app address_of Nat.add].
  rewrite parName_eqb. destruct (Nat.eqb_spec p k) as [->|N]; [reflexivity|].
  apply IH. lia.
Qed.

Lemma set_nth_middle : forall (pre : list float) x y post,
  set_nth (List.length pre) x (pre ++ y :: post) = (pre ++ x :: post)%list.
Proof.
  induction pre as [|z pre IH]; intros; cbn; [reflexivity|]. rewrite IH. reflexivity.
Qed.

Lemma load_row_parameters : forall p (f : nat -> float) n a pre mid post d,
  (a + n <= p)%nat ->
  parameters d = (pre ++ mid ++ post)%list ->
  List.length pre = a -> List.length mid = n ->
  load_row (map parName (seq a n)) (map (fun k => VDouble (f k)) (seq a n))
    (bound_addresses p) d
  = with_parameters d (pre ++ map f (seq a n) ++ post)%list.
Proof.
  intros p f n. induction n as [|n IH]; intros a pre mid post d Ha Hd Hpre Hmid.
  - destruct mid; [|discriminate]. cbn [seq map load_row]. cbn [app] in *.
    rewrite <- Hd. destruct d; reflexivity.
  - destruct mid as [|m mid]; [discriminate|].
    cbn [seq map load_row]. rewrite address_of_parName by lia.
    rewrite IH with (pre := (pre ++ [f a])%list) (mid := mid) (post := post).
    + unfold with_parameters, store. cbn [fMCMCNIterations fMCMCprob fMCMCPhase fMCMCChain].
      rewrite <- app_assoc. reflexivity.
    + lia.
    + unfold store. cbn [parameters]. rewrite Hd. cbn [app]. subst a.
      rewrite set_nth_middle, <- app_assoc. reflexivity.
    + rewrite length_app. cbn. lia.
    + cbn in Hmid. lia.
Qed.

Lemma GetEntry_stored : forall p es i e d,
  nth_error es i = Some e ->
  spare_zero p d ->
  GetEntry (output_tree p es) (bound_addresses p) (Z.of_nat i) d = view p e.
Proof.
  intros p es i e d He [vals [Hv Hl]]. unfold GetEntry.
  replace (Z.of_nat i <? 0) with false by (symmetry; apply Z.ltb_ge; lia).
  rewrite Nat2Z.id. cbn [entries output_tree]. rewrite nth_error_map, He. cbn [option_map].
  change (branch_names (output_tree p es))
    with ("Chain" :: "Iteration" :: "Phase" :: "LogProbability" :: map parName (seq 0 p)).
  unfold output_row. cbn [app load_row].
  rewrite !address_of_fixed by (intro; reflexivity).
  cbn [address_of String.eqb Ascii.eqb Bool.eqb].
  rewrite load_row_parameters with (f := fun k => nth k (entry_Parameters e) 0%float)
    (pre := []) (mid := vals) (post := [0%float]).
  - reflexivity.
  - lia.
  - cbn. exact Hv.
  - reflexivity.
  - exact Hl.
Qed.

Lemma GetEntry_past_the_end : forall t b entry d,
  GetEntries t <= entry -> GetEntry t b entry d = d.
Proof.
  intros t b entry d H. unfold GetEntry, GetEntries in *.
  destruct (entry <? 0); [reflexivity|].
  replace (nth_error (entries t) (Z.to_nat entry)) with (@None (list Value)); [reflexivity|].
  symmetry. apply nth_error_None. lia.
Qed.

Lemma forallb_agree : forall (A : Type) (f g : A -> bool) l,
  (forall x, In x l -> f x = g x) -> forallb f l = forallb g l.
Proof.
  intros A f g l H. induction l as [|x l IH]; [reflexivity|].
  cbn [forallb]. rewrite (H x) by (left; reflexivity).
  rewrite IH; [reflexivity|]. intros y Hy. apply H. right. exact Hy.
Qed.

Lemma check_parameters_forallb : forall ks d1 d2,
  (forall k, In k ks -> (k < List.length (parameters d1))%nat
                        /\ (k < List.length (parameters d2))%nat) ->
  check_parameters ks d1 d2
  = if forallb (fun k => (nth k (parameters d1) 0 =? nth k (parameters d2) 0)%float) ks
    then Returned tt else Threw (TestCaseFailedException "parameters[k]").
Proof.
  induction ks as [|k ks IH]; intros d1 d2 H; [reflexivity|].
  cbn [check_parameters forallb].
  destruct (H k (or_introl eq_refl)) as [H1 H2].
  destruct (nth_error (parameters d1) k) as [x|] eqn:E1;
    [|apply nth_error_None in E1; lia].
  destruct (nth_error (parameters d2) k) as [y|] eqn:E2;
    [|apply nth_error_None in E2; lia].
  rewrite (@nth_error_nth _ _ _ _ 0%float E1), (@nth_error_nth _ _ _ _ 0%float E2).
  unfold TEST_CHECK_EQUAL. destruct (x =? y)%float; cbn [andb]; [|reflexivity].
  apply IH. intros j Hj. apply H. right. exact Hj.
Qed.

Lemma padded_length : forall p e, List.length (padded p e) = S p.
Proof. intros. unfold padded. rewrite length_app, length_map, length_seq. cbn. lia. Qed.

Lemma padded_nth : forall p e k, (k < p)%nat ->
  nth k (padded p e) 0%float = nth k (entry_Parameters e) 0%float.
Proof.
  intros p e k H. unfold padded.
  rewrite app_nth1 by (rewrite length_map, length_seq; exact H).
  rewrite (nth_indep _ 0%float (nth 0 (entry_Parameters e) 0%float))
    by (rewrite length_map, length_seq; exact H).
  change (nth 0 (entry_Parameters e) 0%float)
    with ((fun j => nth j (entry_Parameters e) 0%float) O).
  rewrite map_nth, seq_nth by exact H. reflexivity.
Qed.

Lemma padded_spare : forall p e, nth p (padded p e) 0%float = 0%float.
Proof.
  intros. unfold padded. rewrite app_nth2 by (rewrite length_map, length_seq; lia).
  rewrite length_map, length_seq, Nat.sub_diag. reflexivity.
Qed.

Lemma check_round_view : forall p e1 e2,
  check_round (view p e1) (view p e2)
  = if entries_equal p e1 e2 then Returned tt
    else Threw (TestCaseFailedException
           (if forallb (fun k => (nth k (entry_Parameters e1) 0
                                  =? nth k (entry_Parameters e2) 0)%float) (seq 0 p)
            then if (entry_LogProbability e1 =? entry_LogProbability e2)%float
                 then if entry_Iteration e1 =? entry_Iteration e2
                      then if entry_Phase e1 =? entry_Phase e2
                           then "fMCMCChain" else "fMCMCPhase"
                      else "fMCMCNIterations"
                 else "fMCMCprob"
            else "parameters[k]")).
Proof.
  intros p e1 e2. unfold check_round, entries_equal.
  cbn [view parameters fMCMCprob fMCMCNIterations fMCMCPhase fMCMCChain].
  rewrite check_parameters_forallb
    by (intros k Hk; apply in_seq in Hk; cbn [view parameters]; rewrite !padded_length in *; lia).
  cbn [view parameters]. rewrite padded_length.
  replace (seq 0 (S p)) with (seq 0 p ++ [p]) by (rewrite seq_S; reflexivity).
  rewrite forallb_app. cbn [forallb]. rewrite !padded_spare.
  rewrite forallb_agree
    with (g := fun k => (nth k (entry_Parameters e1) 0 =? nth k (entry_Parameters e2) 0)%float)
    by (intros k Hk; apply in_seq in Hk; rewrite !padded_nth by lia; reflexivity).
  change (0 =? 0)%float with true. rewrite !andb_true_r.
  unfold TEST_CHECK_EQUAL, and_then.
  destruct (forallb _ (seq 0 p)); cbn [andb]; [|reflexivity].
  destruct (entry_LogProbability e1 =? entry_LogProbability e2)%float; cbn [andb]; [|reflexivity].
  destruct (entry_Iteration e1 =? entry_Iteration e2); cbn [andb]; [|reflexivity].
  destruct (entry_Phase e1 =? entry_Phase e2); cbn [andb]; [|reflexivity].
  destruct (entry_Chain e1 =? entry_Chain e2); reflexivity.
Qed.

Lemma view_spare_zero : forall p e, spare_zero p (view p e).
Proof.
  intros. exists (map (fun k => nth k (entry_Parameters e) 0%float) (seq 0 p)).
  split; [reflexivity|]. rewrite length_map, length_seq. reflexivity.
Qed.

Lemma skipn_cons_nth_error : forall (A : Type) i (l : list A) x r,
  skipn i l = x :: r -> nth_error l i = Some x /\ skipn (S i) l = r.
Proof.
  induction i as [|i IH]; intros l x r H.
  - cbn in H. subst l. split; reflexivity.
  - destruct l as [|y l]; [discriminate|]. cbn [skipn] in H.
    destruct (IH l x r H) as [H1 H2]. split; assumption.
Qed.

Lemma compare_chains_from : forall p es1 es2 rest1 rest2 i fuel d1 d2,
  List.length es1 = List.length es2 ->
  skipn i es1 = rest1 -> skipn i es2 = rest2 -> (i <= List.length es1)%nat ->
  (List.length rest1 + 2 <= fuel)%nat ->
  spare_zero p d1 -> spare_zero p d2 ->
  compare_chains fuel (output_tree p es1) (output_tree p es2)
    (bound_addresses p) (bound_addresses p)
    (Z.of_nat (List.length es1)) (Z.of_nat i) d1 d2
  = Some (mkChecked (calls_from i (agreeing_prefix p rest1 rest2 + 1))
            (outcome_from p rest1 rest2 d1 d2)).
Proof.
  intros p es1 es2 rest1. induction rest1 as [|e1 r1 IH];
    intros rest2 i fuel d1 d2 Hlen H1 H2 Hi Hfuel Hd1 Hd2.
  - assert (Hi' : i = List.length es1).
    { assert (L := length_skipn i es1). rewrite H1 in L. cbn in L. lia. }
    assert (rest2 = []).
    { assert (L := length_skipn i es2). rewrite H2 in L.
      destruct rest2; [reflexivity|]. cbn in L. lia. }
    subst rest2. destruct fuel as [|[|fuel]]; [cbn in Hfuel; lia | cbn in Hfuel; lia |].
    cbn [compare_chains]. subst i. rewrite Z.leb_refl.
    rewrite !GetEntry_past_the_end
      by (unfold GetEntries, output_tree; cbn [entries]; rewrite length_map; lia).
    replace (Z.of_nat (List.length es1) + 1 <=? Z.of_nat (List.length es1)) with false
      by (symmetry; apply Z.leb_gt; lia).
    cbn [agreeing_prefix outcome_from Nat.add calls_from seq flat_map app].
    destruct (check_round d1 d2) as [[]|e]; reflexivity.
  - destruct rest2 as [|e2 r2].
    { assert (L1 := length_skipn i es1). assert (L2 := length_skipn i es2).
      rewrite H1 in L1. rewrite H2 in L2. cbn in L1, L2. lia. }
    apply skipn_cons_nth_error in H1. destruct H1 as [N1 S1].
    apply skipn_cons_nth_error in H2. destruct H2 as [N2 S2].
    assert (Hlt : (i < List.length es1)%nat) by (apply nth_error_Some; congruence).
    destruct fuel as [|fuel]; [cbn in Hfuel; lia|].
    cbn [compare_chains].
    replace (Z.of_nat i <=? Z.of_nat (List.length es1)) with true
      by (symmetry; apply Z.leb_le; lia).
    rewrite (@GetEntry_stored p es1 i e1 d1 N1 Hd1), (@GetEntry_stored p es2 i e2 d2 N2 Hd2).
    rewrite check_round_view. cbn [agreeing_prefix outcome_from].
    destruct (entries_equal p e1 e2) eqn:E.
    + replace (Z.of_nat i + 1) with (Z.of_nat (S i)) by lia.
      assert (Hf : (List.length r1 + 2 <= fuel)%nat) by (cbn [List.length] in Hfuel; lia).
      rewrite (IH r2 (S i) fuel (view p e1) (view p e2) Hlen S1 S2 Hlt Hf
                 (view_spare_zero p e1) (view_spare_zero p e2)).
      cbn [calls result Nat.add calls_from seq flat_map app]. reflexivity.
    + rewrite check_round_view, E. reflexivity.
Qed.

Lemma append_eqb : forall d a b, String.eqb (d ++ a)%string (d ++ b)%string = String.eqb a b.
Proof.
  induction d as [|c d IH]; intros a b; [reflexivity|].
  cbn [String.append String.eqb]. rewrite Ascii.eqb_refl. apply IH.
Qed.

Lemma calls_from_length : forall n i, List.length (calls_from i n) = (2 * n)%nat.
Proof.
  unfold calls_from. induction n as [|n IH]; intros i; [reflexivity|].
  cbn [seq flat_map app List.length]. rewrite IH. lia.
Qed.

Lemma rounds_calls_from : forall i n r, rounds (mkChecked (calls_from i n) r) = n.
Proof.
  intros. unfold rounds. cbn [calls]. rewrite calls_from_length.
  rewrite Nat.mul_comm. apply Nat.div_mul. discriminate.
Qed.

Lemma agreeing_prefix_le : forall p es1 es2,
  (agreeing_prefix p es1 es2 <= List.length es1)%nat.
Proof.
  intros p es1. induction es1 as [|e1 r1 IH]; intros [|e2 r2]; cbn; try lia.
  destruct (entries_equal p e1 e2); [specialize (IH r2)|]; lia.
Qed.

Lemma outcome_from_all_agree : forall p es1 es2 d1 d2,
  agreeing_prefix p es1 es2 = List.length es1 ->
  check_round d1 d2 = Returned tt ->
  outcome_from p es1 es2 d1 d2 = Returned tt.
Proof.
  intros p es1. induction es1 as [|e1 r1 IH]; intros es2 d1 d2 H Hd.
  - destruct es2; exact Hd.
  - destruct es2 as [|e2 r2]; [discriminate|]. cbn in H |- *.
    destruct (entries_equal p e1 e2) eqn:E; [|discriminate].
    apply IH; [lia|]. rewrite check_round_view, E. reflexivity.
Qed.

Lemma outcome_from_difference : forall p es1 es2 d1 d2,
  List.length es1 = List.length es2 ->
  (agreeing_prefix p es1 es2 < List.length es1)%nat ->
  exists m, outcome_from p es1 es2 d1 d2 = Threw (TestCaseFailedException m).
Proof.
  intros p es1. induction es1 as [|e1 r1 IH]; intros es2 d1 d2 Hl H.
  - cbn in H. lia.
  - destruct es2 as [|e2 r2]; [discriminate|]. cbn in H |- *.
    destruct (entries_equal p e1 e2) eqn:E.
    + apply IH; [cbn in Hl; lia | lia].
    + rewrite check_round_view, E. eexists. reflexivity.
Qed.

Lemma Open_output_files : forall dir p es1 es2,
  let config := run_config dir in
  Open (output_files config p es1 es2) (rootFileNameParallel config)
    = Some [("Parallelevaluation_mcmc", output_tree p es1)]
  /\ Open (output_files config p es1 es2) (rootFileNameSerial config)
    = Some [("Serialevaluation_mcmc", output_tree p es2)].
Proof.
  intros dir p es1 es2. cbn zeta. unfold output_files, run_config, Default.
  cbn [rootFileNameParallel rootFileNameSerial Open].
  rewrite !String.eqb_refl, append_eqb. split; reflexivity.
Qed.

Lemma Check_output_files : forall dir p es1 es2 u1 u2,
  Z.of_nat p + 4 <= 2 ^ 31 - 1 ->
  List.length es1 = List.length es2 ->
  Check (run_config dir) (output_files (run_config dir) p es1 es2) u1 u2
  = Some (mkChecked (calls_from 0 (agreeing_prefix p es1 es2 + 1))
            (outcome_from p es1 es2
               (with_parameters (first_read es1 u1) (repeat 0%float (p + 1)))
               (with_parameters (first_read es2 u2) (repeat 0%float (p + 1))))).
Proof.
  intros dir p es1 es2 u1 u2 Hp Hl. unfold Check.
  destruct (Open_output_files dir p es1 es2) as [O1 O2]. cbn zeta in O1, O2.
  rewrite O1, O2. cbn [GetObject String.eqb Ascii.eqb Bool.eqb].
  rewrite !DataHolder_ctor_output_tree by exact Hp.
  cbn [data addresses].
  assert (G1 : GetEntries (output_tree p es1) = Z.of_nat (List.length es1))
    by (unfold GetEntries, output_tree; cbn [entries]; rewrite length_map; reflexivity).
  assert (G2 : GetEntries (output_tree p es2) = Z.of_nat (List.length es1))
    by (unfold GetEntries, output_tree; cbn [entries]; rewrite length_map, Hl; reflexivity).
  rewrite G1, G2, Z.eqb_refl. cbn [TEST_CHECK_EQUAL]. rewrite Nat2Z.id.
  assert (Hs : forall d, spare_zero p (with_parameters d (repeat 0%float (p + 1)))).
  { intro d. exists (repeat 0%float p). split; [|apply repeat_length].
    cbn [with_parameters parameters]. rewrite Nat.add_1_r.
    cbn [repeat]. apply (repeat_cons p 0%float). }
  apply (@compare_chains_from p es1 es2 es1 es2 0); auto; lia.
Qed.

(* ----------------------------------------------------------------- *)
(** ** Output::PrintValues *)

Lemma PrintValues_returns : forall this time st,
  Z.of_nat (List.length (real_time_array st)) < 2 ^ 64 - 1 ->
  PrintValues this time st
  = Returned (mkProcess (real_time_array st ++ [time])
      (cout st ++
       if Nat.even (List.length (real_time_array st ++ [time]))
       then [previous_time_line (last (real_time_array st) 0%float);
             difference_line (last (real_time_array st) 0 - time)%float;
             improvement_factor_line (last (real_time_array st) 0 / time)%float]
       else [])).
Proof.
  intros this time st Hsize. unfold PrintValues.
  set (array := real_time_array st ++ [time]).
  assert (Hlen : List.length array = S (List.length (real_time_array st)))
    by (unfold array; rewrite length_app; cbn; lia).
  destruct (Nat.even (List.length array)) eqn:E.
  - apply Nat.even_spec in E. destruct E as [h Hh].
    replace (Z.of_nat (List.length array) mod 2 =? 1) with false.
    2:{ symmetry. apply Z.eqb_neq. rewrite Hh, Nat2Z.inj_mul, Z.mul_comm, Z_mod_mult.
        discriminate. }
    rewrite size_t_wrap_small by lia. unfold at_.
    replace (Z.to_nat (Z.of_nat (List.length array) - 2))
      with (List.length (real_time_array st) - 1)%nat by lia.
    assert (Hne : real_time_array st <> []).
    { intro N. rewrite N in Hlen. cbn in Hlen. lia. }
    destruct (exists_last Hne) as [front [x Hx]].
    unfold array. rewrite Hx, last_last, length_app. cbn [List.length].
    rewrite <- app_assoc. rewrite nth_error_app2 by lia.
    replace (List.length front + 1 - 1 - List.length front)%nat with O by lia.
    reflexivity.
  - replace (Z.of_nat (List.length array) mod 2 =? 1) with true.
    + rewrite app_nil_r. reflexivity.
    + symmetry. apply Z.eqb_eq.
      assert (O : Nat.odd (List.length array) = true)
        by (rewrite <- Nat.negb_even, E; reflexivity).
      apply Nat.odd_spec in O. destruct O as [h Hh].
      rewrite Hh, Nat2Z.inj_add, Nat2Z.inj_mul, Z.add_comm, Z.mul_comm, Z_mod_plus_full.
      reflexivity.
Qed.

Lemma printed_pairs_snoc : forall times time,
  printed_pairs (times ++ [time])
  = printed_pairs times ++
    if Nat.even (List.length (times ++ [time]))
    then [previous_time_line (last times 0%float);
          difference_line (last times 0 - time)%float;
          improvement_factor_line (last times 0 / time)%float]
    else [].
Proof.
  fix IH 1. intros [|a [|b rest]] time.
  - reflexivity.
  - reflexivity.
  - change (printed_pairs ((a :: b :: rest) ++ [time]))
      with (previous_time_line a :: difference_line (a - b)%float
            :: improvement_factor_line (a / b)%float :: printed_pairs (rest ++ [time])).
    rewrite IH. cbn [printed_pairs app List.length Nat.even].
    destruct rest as [|c rest']; [reflexivity|].
    change (last (a :: b :: c :: rest') 0%float) with (last (c :: rest') 0%float).
    reflexivity.
Qed.

Lemma PrintValues_calls_snoc : forall cs op time st,
  PrintValues_calls (cs ++ [(op, time)]) st
  = match PrintValues_calls cs st with
    | Returned st' => PrintValues op time st'
    | Threw e => Threw e
    end.
Proof.
  induction cs as [|[o t] cs IH]; intros op time st; cbn [app PrintValues_calls].
  - destruct (PrintValues op time st); reflexivity.
  - destruct (PrintValues o t st); [apply IH | reflexivity].
Qed.

Lemma PrintValues_calls_from_start : forall cs,
  Z.of_nat (List.length cs) < 2 ^ 64 ->
  PrintValues_calls cs process_start
  = Returned (mkProcess (map snd cs) (printed_pairs (map snd cs))).
Proof.
  induction cs as [|[op time] cs IH] using rev_ind; intros H; [reflexivity|].
  rewrite length_app in H. cbn [List.length] in H.
  rewrite PrintValues_calls_snoc, IH by lia.
  rewrite PrintValues_returns by (cbn [real_time_array]; rewrite length_map; lia).
  cbn [real_time_array cout]. rewrite map_app. cbn [map snd].
  rewrite printed_pairs_snoc. reflexivity.
Qed.

(** In the test the serial and the parallel run use two [Output] objects;
    the vector is shared all the same, so the second call finds the serial
    time and prints the comparison. *)
Lemma CreateOutput_twice_prints_once : forall MarginalizeAll config fs,
  exists st1 st2,
    CreateOutput MarginalizeAll config false (fs, process_start) = Returned st1
    /\ CreateOutput MarginalizeAll config true st1 = Returned st2
    /\ cout (snd st1) = []
    /\ exists serial_time parallel_time,
         real_time_array (snd st2) = [serial_time; parallel_time]
         /\ cout (snd st2)
            = [previous_time_line serial_time;
               difference_line (serial_time - parallel_time)%float;
               improvement_factor_line (serial_time / parallel_time)%float]
         /\ Open (fst st2) (rootFileNameParallel config)
            = Some (fst (MarginalizeAll
                           (mkRequest (num_chains config) "Parallel evaluation"
                              (num_parameters config) (lag config)
                              (num_iterations config) (num_chains config) 11))).
Proof.
  intros engine config fs.
  destruct (engine (mkRequest 1 "Serial evaluation" (num_parameters config) (lag config)
                      (num_iterations config) (num_chains config) seed))
    as [file1 t1] eqn:E1.
  destruct (engine (mkRequest (num_chains config) "Parallel evaluation"
                      (num_parameters config) (lag config)
                      (num_iterations config) (num_chains config) seed))
    as [file2 t2] eqn:E2.
  exists ((rootFileNameSerial config, file1) :: fs, mkProcess [t1] []).
  exists ((rootFileNameParallel config, file2) :: (rootFileNameSerial config, file1) :: fs,
          mkProcess [t1; t2]
            [previous_time_line t1; difference_line (t1 - t2)%float;
             improvement_factor_line (t1 / t2)%float]).
  unfold CreateOutput. cbn [fst snd]. rewrite E1, E2.
  rewrite !PrintValues_returns by (cbn; lia).
  cbn [real_time_array cout process_start app List.length Nat.even last fst snd Open].
  rewrite String.eqb_refl. unfold seed in E2. rewrite E2.
  split; [reflexivity|]. split; [reflexivity|]. split; [reflexivity|].
  exists t1, t2. repeat split; reflexivity.
Qed.

(* ----------------------------------------------------------------- *)
(** ** Main results on the test *)

(** C10.  [Output::PrintValues] keeps every time it is passed in one vector
    that belongs to the function, not to the object it is called on: after
    any calls [cs], made on whatever [Output] objects, the vector holds
    exactly the times of those calls in order.  The next call, on any
    object, appends its time; when the number of stored times is then even
    it prints the previously stored time and the difference and the ratio
    of that time and the new one, and when it is odd it prints nothing. *)
Theorem PrintValues_shared_array_prints_on_even :
  forall (cs : list (Output * float)) (this : Output) (time : float),
    Z.of_nat (List.length cs) < 2 ^ 64 - 1 ->
    exists st st',
      PrintValues_calls cs process_start = Returned st
      /\ real_time_array st = map snd cs
      /\ cout st = printed_pairs (map snd cs)
      /\ PrintValues this time st = Returned st'
      /\ real_time_array st' = map snd cs ++ [time]
      /\ cout st' = cout st ++
           if Nat.even (List.length (real_time_array st'))
           then [previous_time_line (last (map snd cs) 0%float);
                 difference_line (last (map snd cs) 0 - time)%float;
                 improvement_factor_line (last (map snd cs) 0 / time)%float]
           else [].
Proof.
  intros cs this time H.
  rewrite PrintValues_calls_from_start by lia.
  eexists. eexists. split; [reflexivity|].
  rewrite PrintValues_returns by (cbn [real_time_array]; rewrite length_map; lia).
  cbn [real_time_array cout]. repeat split; reflexivity.
Qed.

Lemma PrintValues_shared_array_prints_on_even_witness :
  exists st st',
    PrintValues_calls [(mkOutput, 4%float)] process_start = Returned st
    /\ real_time_array st = map snd [(mkOutput, 4%float)]
    /\ cout st = printed_pairs (map snd [(mkOutput, 4%float)])
    /\ PrintValues mkOutput 2%float st = Returned st'
    /\ real_time_array st' = map snd [(mkOutput, 4%float)] ++ [2%float]
    /\ cout st' = cout st ++
         if Nat.even (List.length (real_time_array st'))
         then [previous_time_line (last (map snd [(mkOutput, 4%float)]) 0%float);
               difference_line (last (map snd [(mkOutput, 4%float)]) 0 - 2)%float;
               improvement_factor_line (last (map snd [(mkOutput, 4%float)]) 0 / 2)%float]
         else [].
Proof.
  apply (PrintValues_shared_array_prints_on_even [(mkOutput, 4%float)] mkOutput 2%float).
  vm_compute. reflexivity.
Defined.



(** C8, as amended.  [Check] on the two output trees of runs with [p]
    parameters, each holding [nEntries] records: the comparison loop reads
    index 0, 1, ... from both trees and stops with a failed test at the
    first index whose two records differ in a compared field.  When no
    stored records differ, it issues [GetEntry] for every index from 0 up
    to and including [nEntries], one read past the last record, so that
    [nEntries + 1] rounds are made; that last round compares what the
    previous one left in the holders, and for non-empty trees the check
    passes. *)
Theorem Check_rounds_until_first_difference :
  forall (dir : string) (p : nat) (parallel serial : list Entry)
         (u1 u2 : DataHolder),
    Z.of_nat p + 4 <= 2 ^ 31 - 1 ->
    List.length parallel = List.length serial ->
    let nEntries := List.length parallel in
    let agree := agreeing_prefix p parallel serial in
    exists c,
      Check (run_config dir) (output_files (run_config dir) p parallel serial) u1 u2
        = Some c
      /\ calls c = calls_from 0 (agree + 1)
      /\ rounds c = (agree + 1)%nat
      /\ (agree = nEntries ->
            calls c = calls_from 0 (nEntries + 1)
            /\ rounds c = (nEntries + 1)%nat
            /\ In (one, GetEntries (output_tree p parallel)) (calls c)
            /\ In (two, GetEntries (output_tree p serial)) (calls c)
            /\ (nEntries <> O -> result c = Returned tt))
      /\ (agree <> nEntries ->
            (rounds c <= nEntries)%nat
            /\ exists m, result c = Threw (TestCaseFailedException m)).
Proof.
  intros dir p parallel serial u1 u2 Hp Hl nEntries agree.
  eexists. split; [apply Check_output_files; assumption|].
  cbn [calls result]. fold agree. rewrite rounds_calls_from.
  assert (Hle := agreeing_prefix_le p parallel serial). fold agree nEntries in Hle.
  split; [reflexivity|]. split; [reflexivity|]. split.
  - intro E. rewrite E. split; [reflexivity|]. split; [reflexivity|].
    assert (G : forall es, List.length es = nEntries ->
              GetEntries (output_tree p es) = Z.of_nat nEntries).
    { intros es L. unfold GetEntries, output_tree. cbn [entries].
      rewrite length_map, L. reflexivity. }
    assert (I : forall w, In (w, Z.of_nat nEntries) (calls_from 0 (nEntries + 1))).
    { intro w. unfold calls_from. apply in_flat_map. exists nEntries. split.
      - apply in_seq. lia.
      - destruct w; [left | right; left]; reflexivity. }
    rewrite (G parallel eq_refl), (G serial (eq_sym Hl)).
    split; [apply I|]. split; [apply I|].
    intro Hne. destruct parallel as [|e1 r1]; [exfalso; apply Hne; reflexivity|].
    destruct serial as [|e2 r2]; [discriminate|].
    unfold agree, nEntries in E. cbn [agreeing_prefix List.length] in E.
    cbn [outcome_from]. destruct (entries_equal p e1 e2) eqn:Eq; [|discriminate].
    apply outcome_from_all_agree; [lia|]. rewrite check_round_view, Eq. reflexivity.
  - intro N. split; [lia|]. apply outcome_from_difference; [exact Hl|].
    fold agree nEntries. lia.
Qed.

Lemma Check_rounds_until_first_difference_witness :
  let nEntries := List.length [sample_entry; sample_entry] in
  let agree := agreeing_prefix 1 [sample_entry; sample_entry] [sample_entry; sample_entry] in
  exists c,
    Check (run_config "/tmp/")
      (output_files (run_config "/tmp/") 1 [sample_entry; sample_entry]
         [sample_entry; sample_entry]) blank_holder blank_holder
      = Some c
    /\ calls c = calls_from 0 (agree + 1)
    /\ rounds c = (agree + 1)%nat
    /\ (agree = nEntries ->
          calls c = calls_from 0 (nEntries + 1)
          /\ rounds c = (nEntries + 1)%nat
          /\ In (one, GetEntries (output_tree 1 [sample_entry; sample_entry])) (calls c)
          /\ In (two, GetEntries (output_tree 1 [sample_entry; sample_entry])) (calls c)
          /\ (nEntries <> O -> result c = Returned tt))
    /\ (agree <> nEntries ->
          (rounds c <= nEntries)%nat
          /\ exists m, result c = Threw (TestCaseFailedException m)).
Proof.
  apply (Check_rounds_until_first_difference "/tmp/" 1
           [sample_entry; sample_entry] [sample_entry; sample_entry]
           blank_holder blank_holder).
  - vm_compute. discriminate.
  - reflexivity.
Defined.

(** C8 as it was stated fails when the trees differ: on two one-record
    trees whose records differ in their log-probability the first round
    throws, and index 1 = nEntries is never read. *)
Lemma Check_stops_at_a_difference :
  exists c,
    Check (run_config "/tmp/")
      (output_files (run_config "/tmp/") 1 [sample_entry] [other_entry])
      blank_holder blank_holder
      = Some c
    /\ GetEntries (output_tree 1 [sample_entry]) = 1
    /\ GetEntries (output_tree 1 [other_entry]) = 1
    /\ calls c = [(one, 0); (two, 0)]
    /\ rounds c = 1%nat
    /\ result c = Threw (TestCaseFailedException "fMCMCprob")
    /\ ~ In (one, 1) (calls c)
    /\ rounds c <> (1 + 1)%nat.
Proof.
  eexists. split; [vm_compute; reflexivity|].
  cbn [calls result]. repeat split; try reflexivity.
  - intros [H|[H|[]]]; discriminate H.
  - discriminate.
Qed.

(* ----------------------------------------------------------------- *)
(** ** Further properties of the test *)

Lemma calls_from_step : forall i m,
  (one, Z.of_nat i) :: (two, Z.of_nat i) :: calls_from (S i) m = calls_from i (S m).
Proof. reflexivity. Qed.

Lemma compare_chains_terminates : forall t1 t2 b1 b2 (n k i fuel : nat) d1 d2,
  (i + k = n + 1)%nat -> (k < fuel)%nat ->
  exists c m,
    compare_chains fuel t1 t2 b1 b2 (Z.of_nat n) (Z.of_nat i) d1 d2 = Some c
    /\ calls c = calls_from i m
    /\ (m <= k)%nat
    /\ (result c = Returned tt -> m = k).
Proof.
  intros t1 t2 b1 b2 n k. induction k as [|k IH]; intros i fuel d1 d2 Hk Hf.
  - destruct fuel as [|fuel]; [lia|]. cbn [compare_chains].
    replace (Z.of_nat i <=? Z.of_nat n) with false by (symmetry; apply Z.leb_gt; lia).
    exists (mkChecked [] (Returned tt)), O. repeat split. lia.
  - destruct fuel as [|fuel]; [lia|]. cbn [compare_chains].
    replace (Z.of_nat i <=? Z.of_nat n) with true by (symmetry; apply Z.leb_le; lia).
    destruct (check_round _ _) as [[]|e].
    + replace (Z.of_nat i + 1) with (Z.of_nat (S i)) by lia.
      destruct (IH (S i) fuel (GetEntry t1 b1 (Z.of_nat i) d1) (GetEntry t2 b2 (Z.of_nat i) d2))
        as [c [m [Hc [Hcalls [Hm Hres]]]]]; [lia | lia |].
      rewrite Hc. exists (mkChecked ((one, Z.of_nat i) :: (two, Z.of_nat i) :: calls c) (result c)),
        (S m). cbn [calls result]. rewrite Hcalls.
      split; [reflexivity|]. split; [apply calls_from_step|]. split; [lia|].
      intro R. rewrite (Hres R). reflexivity.
    + exists (mkChecked [(one, Z.of_nat i); (two, Z.of_nat i)] (Threw e)), 1%nat.
      cbn [calls result]. split; [reflexivity|]. split; [reflexivity|]. split; [lia|].
      discriminate.
Qed.

(** [Check] comes to an end on every pair of files and for any contents of
    the holders: it makes at most [nEntries1 + 1] rounds, reading the
    indices 0, 1, ... of both trees in order, each once and none beyond
    [nEntries1]; and it only returns normally after all [nEntries1 + 1]
    rounds. *)
Theorem Check_terminates_within_bounds :
  forall (config : Config) (fs : FileSystem) (u1 u2 : DataHolder),
    exists c m,
      Check config fs u1 u2 = Some c
      /\ calls c = calls_from 0 m
      /\ (m <= parallel_entries config fs + 1)%nat
      /\ (result c = Returned tt -> m = (parallel_entries config fs + 1)%nat).
Proof.
  intros config fs u1 u2. unfold Check, parallel_entries, failed.
  assert (Early : forall e n, exists c m,
            Some (mkChecked [] (Threw e)) = Some c /\ calls c = calls_from 0 m
            /\ (m <= n + 1)%nat /\ (result c = Returned tt -> m = (n + 1)%nat)).
  { intros e n. exists (mkChecked [] (Threw e)), O. cbn [calls result].
    split; [reflexivity|]. split; [reflexivity|]. split; [lia | discriminate]. }
  destruct (Open fs (rootFileNameParallel config)) as [rfile1|]; [|apply Early].
  destruct (Open fs (rootFileNameSerial config)) as [rfile2|]; [|apply Early].
  destruct (GetObject rfile1 "Parallelevaluation_mcmc") as [t1|]; [|apply Early].
  destruct (GetObject rfile2 "Serialevaluation_mcmc") as [t2|]; [|apply Early].
  destruct (DataHolder_ctor (Some t1) u1) as [c1|e1]; [|apply Early].
  destruct (DataHolder_ctor (Some t2) u2) as [c2|e2]; [|apply Early].
  unfold TEST_CHECK_EQUAL. destruct (GetEntries t1 =? GetEntries t2); [|apply Early].
  unfold GetEntries. rewrite Nat2Z.id.
  apply (@compare_chains_terminates t1 t2 (addresses c1) (addresses c2)
           (List.length (entries t1)) (List.length (entries t1) + 1) 0); lia.
Qed.

(** The constructor of [DataHolder] on what it cannot use: a null pointer
    fails the test; a tree with fewer than three branches makes
    [GetNbranches() - 3] negative, which as a [size_t] is more than a
    vector can hold, so [resize] throws. *)
Theorem DataHolder_ctor_rejects :
  forall (uninitialised : DataHolder),
    DataHolder_ctor None uninitialised = Threw (TestCaseFailedException "tree")
    /\ forall t : TTree,
         GetNbranches t < 3 ->
         DataHolder_ctor (Some t) uninitialised = Threw length_error.
Proof.
  intro u. split; [reflexivity|]. intros t H. unfold DataHolder_ctor.
  assert (H0 : 0 <= GetNbranches t) by (unfold GetNbranches; lia).
  assert (W : size_t_wrap (GetNbranches t - 3) = GetNbranches t - 3 + 2 ^ 64).
  { unfold size_t_wrap.
    rewrite <- (Z_mod_plus_full (GetNbranches t - 3) 1 (2 ^ 64)).
    rewrite Z.mul_1_l. apply Z.mod_small. lia. }
  assert (G : (size_t_wrap (GetNbranches t - 3) >? max_size) = true).
  { rewrite W, Z.gtb_ltb. apply Z.ltb_lt. unfold max_size. lia. }
  cbv zeta. rewrite G. reflexivity.
Qed.

Lemma DataHolder_ctor_rejects_witness :
  DataHolder_ctor (Some (mkTTree ["Iteration"; "Chain"] [])) blank_holder
  = Threw length_error.
Proof.
  destruct (DataHolder_ctor_rejects blank_holder) as [_ H].
  apply H. reflexivity.
Defined.

(** What a holder contains when its constructor returns, on the output
    tree of a run with [p] parameters: the scalar members are those of the
    first stored record, or still uninitialised when the tree is empty;
    every element of the vector is zero, whatever parameters the first
    record stores, because the parameter branches get their addresses only
    after the entry was read. *)
Theorem DataHolder_ctor_reads_scalars_only :
  forall (p : nat) (es : list Entry) (uninitialised : DataHolder),
    Z.of_nat p + 4 <= 2 ^ 31 - 1 ->
    exists c,
      DataHolder_ctor (Some (output_tree p es)) uninitialised = Returned c
      /\ parameters (data c) = repeat 0%float (p + 1)
      /\ match es with
         | e :: _ =>
             fMCMCNIterations (data c) = entry_Iteration e
             /\ fMCMCprob (data c) = entry_LogProbability e
             /\ fMCMCPhase (data c) = entry_Phase e
             /\ fMCMCChain (data c) = entry_Chain e
         | [] =>
             fMCMCNIterations (data c) = fMCMCNIterations uninitialised
             /\ fMCMCprob (data c) = fMCMCprob uninitialised
             /\ fMCMCPhase (data c) = fMCMCPhase uninitialised
             /\ fMCMCChain (data c) = fMCMCChain uninitialised
         end.
Proof.
  intros p es u Hp. eexists. split; [apply DataHolder_ctor_output_tree; exact Hp|].
  cbn [data with_parameters parameters]. split; [reflexivity|].
  destruct es; cbn; repeat split; reflexivity.
Qed.

Lemma DataHolder_ctor_reads_scalars_only_witness :
  exists c,
    DataHolder_ctor (Some (output_tree 1 [sample_entry])) blank_holder = Returned c
    /\ parameters (data c) = repeat 0%float (1 + 1)
    /\ (fMCMCNIterations (data c) = entry_Iteration sample_entry
        /\ fMCMCprob (data c) = entry_LogProbability sample_entry
        /\ fMCMCPhase (data c) = entry_Phase sample_entry
        /\ fMCMCChain (data c) = entry_Chain sample_entry).
Proof.
  apply (DataHolder_ctor_reads_scalars_only 1 [sample_entry] blank_holder).
  vm_compute. discriminate.
Defined.



Lemma Check_output_files_counts : forall dir p es1 es2 u1 u2,
  Z.of_nat p + 4 <= 2 ^ 31 - 1 ->
  List.length es1 <> List.length es2 ->
  Check (run_config dir) (output_files (run_config dir) p es1 es2) u1 u2
  = Some (mkChecked [] (Threw (TestCaseFailedException "nEntries1"))).
Proof.
  intros dir p es1 es2 u1 u2 Hp Hl. unfold Check.
  destruct (Open_output_files dir p es1 es2) as [O1 O2]. cbn zeta in O1, O2.
  rewrite O1, O2. cbn [GetObject String.eqb Ascii.eqb Bool.eqb].
  rewrite !DataHolder_ctor_output_tree by exact Hp.
  unfold GetEntries, output_tree. cbn [entries]. rewrite !length_map.
  replace (Z.of_nat (List.length es1) =? Z.of_nat (List.length es2)) with false
    by (symmetry; apply Z.eqb_neq; lia).
  reflexivity.
Qed.

Lemma agree_all_Forall2 : forall p es1 es2,
  Forall2 (fun e1 e2 => entries_equal p e1 e2 = true) es1 es2
  <-> List.length es1 = List.length es2
      /\ agreeing_prefix p es1 es2 = List.length es1.
Proof.
  intros p es1. induction es1 as [|e1 r1 IH]; intros [|e2 r2].
  - split; [intros _; split; reflexivity | constructor].
  - split; [intro H; inversion H | intros [H _]; discriminate H].
  - split; [intro H; inversion H | intros [H _]; discriminate H].
  - cbn [List.length agreeing_prefix]. split.
    + intro H. inversion H as [|? ? ? ? E F]; subst. rewrite E.
      apply IH in F. destruct F as [F1 F2]. split; congruence.
    + intros [L A]. destruct (entries_equal p e1 e2) eqn:E; [|discriminate].
      constructor; [exact E|]. apply IH. split; congruence.
Qed.

Lemma Check_output_files_verdict :
  forall (dir : string) (p : nat) (parallel serial : list Entry) (u1 u2 : DataHolder),
    Z.of_nat p + 4 <= 2 ^ 31 - 1 ->
    parallel <> [] ->
    exists c,
      Check (run_config dir) (output_files (run_config dir) p parallel serial) u1 u2
        = Some c
      /\ (result c = Returned tt
          <-> Forall2 (fun e1 e2 => entries_equal p e1 e2 = true) parallel serial).
Proof.
  intros dir p parallel serial u1 u2 Hp Hne.
  destruct (Nat.eq_dec (List.length parallel) (List.length serial)) as [Hl|Hl].
  - eexists. split; [apply Check_output_files; assumption|]. cbn [result].
    rewrite agree_all_Forall2. split.
    + intro R. split; [exact Hl|].
      destruct (Nat.eq_dec (agreeing_prefix p parallel serial) (List.length parallel))
        as [E|N]; [exact E|].
      assert (Hle := agreeing_prefix_le p parallel serial).
      destruct (@outcome_from_difference p parallel serial
                  (with_parameters (first_read parallel u1) (repeat 0%float (p + 1)))
                  (with_parameters (first_read serial u2) (repeat 0%float (p + 1)))
                  Hl ltac:(lia)) as [m Hm].
      rewrite Hm in R. discriminate R.
    + intros [_ A]. destruct parallel as [|e1 r1]; [contradiction Hne; reflexivity|].
      destruct serial as [|e2 r2]; [discriminate|].
      cbn [agreeing_prefix List.length outcome_from] in *.
      destruct (entries_equal p e1 e2) eqn:E; [|discriminate].
      apply outcome_from_all_agree; [lia|]. rewrite check_round_view, E. reflexivity.
  - eexists. split; [apply Check_output_files_counts; assumption|]. cbn [result].
    split; [discriminate|]. intro F. apply agree_all_Forall2 in F. tauto.
Qed.

(** On non-empty output trees the verdict of [Check] is exactly what the
    test is for: it returns normally if and only if the two trees hold the
    same number of records and every pair of records agrees, under [==],
    in all parameters, the log-probability, the iteration, the phase and
    the chain.  The uninitialised members of the holders and the read past
    the end do not change the verdict. *)
Theorem Check_passes_iff_records_agree :
  forall (dir : string) (p : nat) (parallel serial : list Entry) (u1 u2 : DataHolder),
    Z.of_nat p + 4 <= 2 ^ 31 - 1 ->
    parallel <> [] ->
    exists c,
      Check (run_config dir) (output_files (run_config dir) p parallel serial) u1 u2
        = Some c
      /\ (result c = Returned tt
          <-> Forall2 (fun e1 e2 => entries_equal p e1 e2 = true) parallel serial).
Proof.
  intros dir p parallel serial u1 u2 Hp Hne.
  exact (@Check_output_files_verdict dir p parallel serial u1 u2 Hp Hne).
Qed.

Lemma Check_passes_iff_records_agree_witness :
  exists c,
    Check (run_config "/tmp/")
      (output_files (run_config "/tmp/") 1 [sample_entry] [other_entry])
      blank_holder blank_holder = Some c
    /\ (result c = Returned tt
        <-> Forall2 (fun e1 e2 => entries_equal 1 e1 e2 = true)
              [sample_entry] [other_entry]).
Proof.
  apply (@Check_passes_iff_records_agree "/tmp/" 1 [sample_entry] [other_entry]
           blank_holder blank_holder).
  - vm_compute. discriminate.
  - discriminate.
Defined.

Lemma check_parameters_zeros : forall n d1 d2,
  parameters d1 = repeat 0%float n -> parameters d2 = repeat 0%float n ->
  check_parameters (seq 0 (List.length (parameters d1))) d1 d2 = Returned tt.
Proof.
  intros n d1 d2 H1 H2. rewrite check_parameters_forallb.
  - replace (forallb _ _) with true; [reflexivity|]. symmetry. apply forallb_forall.
    intros k _. rewrite H1, H2, nth_repeat. reflexivity.
  - intros k Hk. apply in_seq in Hk. rewrite H1, H2 in *. lia.
Qed.

(** On two empty trees nothing is ever read into the holders: the one
    round that is made compares the members as the constructors left them,
    uninitialised, and the verdict is that of this comparison. *)
Theorem Check_on_empty_trees_compares_uninitialised :
  forall (dir : string) (p : nat) (u1 u2 : DataHolder),
    Z.of_nat p + 4 <= 2 ^ 31 - 1 ->
    exists c,
      Check (run_config dir) (output_files (run_config dir) p [] []) u1 u2 = Some c
      /\ calls c = [(one, 0); (two, 0)]
      /\ (result c = Returned tt
          <-> (fMCMCprob u1 =? fMCMCprob u2)%float
              && (fMCMCNIterations u1 =? fMCMCNIterations u2)
              && (fMCMCPhase u1 =? fMCMCPhase u2)
              && (fMCMCChain u1 =? fMCMCChain u2) = true).
Proof.
  intros dir p u1 u2 Hp. eexists.
  split; [apply Check_output_files; [exact Hp | reflexivity]|].
  cbn [calls result agreeing_prefix outcome_from first_read Nat.add].
  split; [reflexivity|]. unfold check_round.
  rewrite (@check_parameters_zeros (p + 1)) by reflexivity.
  cbn [and_then with_parameters fMCMCprob fMCMCNIterations fMCMCPhase fMCMCChain].
  unfold TEST_CHECK_EQUAL, and_then.
  destruct (fMCMCprob u1 =? fMCMCprob u2)%float; cbn [andb]; [|split; discriminate].
  destruct (fMCMCNIterations u1 =? fMCMCNIterations u2); cbn [andb]; [|split; discriminate].
  destruct (fMCMCPhase u1 =? fMCMCPhase u2); cbn [andb]; [|split; discriminate].
  destruct (fMCMCChain u1 =? fMCMCChain u2); split; try discriminate; reflexivity.
Qed.

Lemma Check_on_empty_trees_compares_uninitialised_witness :
  exists c,
    Check (run_config "/tmp/") (output_files (run_config "/tmp/") 1 [] [])
      blank_holder (mkDataHolder 7 0%float 0 0 []) = Some c
    /\ calls c = [(one, 0); (two, 0)]
    /\ (result c = Returned tt
        <-> (fMCMCprob blank_holder =? 0)%float
            && (fMCMCNIterations blank_holder =? 7)
            && (fMCMCPhase blank_holder =? 0)
            && (fMCMCChain blank_holder =? 0) = true).
Proof.
  apply (@Check_on_empty_trees_compares_uninitialised "/tmp/" 1 blank_holder
           (mkDataHolder 7 0%float 0 0 [])).
  vm_compute. discriminate.
Defined.

Lemma agreeing_prefix_stops : forall p es e,
  In e es -> entries_equal p e e = false ->
  (agreeing_prefix p es es < List.length es)%nat.
Proof.
  intros p es e. induction es as [|a es IH]; intros I E; [contradiction|].
  cbn [agreeing_prefix List.length]. destruct (entries_equal p a a) eqn:Ea; [|lia].
  destruct I as [->|I]; [congruence|]. specialize (IH I E). lia.
Qed.

(** A stored NaN makes the test fail even when the two runs wrote the very
    same records: [Check] compares doubles with [==], and a NaN is not
    equal to itself. *)
Theorem Check_fails_on_NaN :
  forall (dir : string) (p : nat) (es : list Entry) (e : Entry) (u1 u2 : DataHolder),
    Z.of_nat p + 4 <= 2 ^ 31 - 1 ->
    In e es ->
    PrimFloat.is_nan (entry_LogProbability e) = true
    \/ (exists k, (k < p)%nat /\ PrimFloat.is_nan (nth k (entry_Parameters e) 0%float) = true) ->
    exists c m,
      Check (run_config dir) (output_files (run_config dir) p es es) u1 u2 = Some c
      /\ result c = Threw (TestCaseFailedException m).
Proof.
  intros dir p es e u1 u2 Hp I N.
  assert (E : entries_equal p e e = false).
  { unfold entries_equal. destruct N as [N|[k [Hk N]]].
    - unfold PrimFloat.is_nan in N. apply negb_true_iff in N. rewrite N.
      rewrite andb_false_r. reflexivity.
    - unfold PrimFloat.is_nan in N. apply negb_true_iff in N.
      replace (forallb _ (seq 0 p)) with false; [reflexivity|].
      symmetry. apply not_true_is_false. intro F. rewrite forallb_forall in F.
      specialize (F k). rewrite N in F. discriminate F. apply in_seq. lia. }
  assert (L := @agreeing_prefix_stops p es e I E).
  destruct (@outcome_from_difference p es es
              (with_parameters (first_read es u1) (repeat 0%float (p + 1)))
              (with_parameters (first_read es u2) (repeat 0%float (p + 1)))
              eq_refl L) as [m Hm].
  eexists. exists m. split; [apply Check_output_files; [exact Hp | reflexivity]|].
  exact Hm.
Qed.

Lemma Check_fails_on_NaN_witness :
  exists c m,
    Check (run_config "/tmp/")
      (output_files (run_config "/tmp/") 1 [undefined_entry] [undefined_entry])
      blank_holder blank_holder = Some c
    /\ result c = Threw (TestCaseFailedException m).
Proof.
  apply (@Check_fails_on_NaN "/tmp/" 1 [undefined_entry] undefined_entry
           blank_holder blank_holder).
  - vm_compute. discriminate.
  - left. reflexivity.
  - left. reflexivity.
Defined.

Lemma initial_holder_spare_zero : forall p es u, spare_zero p (initial_holder p es u).
Proof.
  intros p es u. exists (repeat 0%float p). split; [|apply repeat_length].
  unfold initial_holder. cbn [with_parameters parameters]. rewrite Nat.add_1_r.
  cbn [repeat]. apply (repeat_cons p 0%float).
Qed.

Lemma compare_chains_verdict : forall p1 p2 es1 es2 rest1 rest2 i fuel d1 d2,
  List.length es1 = List.length es2 ->
  skipn i es1 = rest1 -> skipn i es2 = rest2 -> (i <= List.length es1)%nat ->
  (List.length rest1 + 2 <= fuel)%nat ->
  spare_zero p1 d1 -> spare_zero p2 d2 ->
  exists cs,
    compare_chains fuel (output_tree p1 es1) (output_tree p2 es2)
      (bound_addresses p1) (bound_addresses p2)
      (Z.of_nat (List.length es1)) (Z.of_nat i) d1 d2
    = Some (mkChecked cs (verdict_from p1 p2 rest1 rest2 d1 d2)).
Proof.
  intros p1 p2 es1 es2 rest1. induction rest1 as [|e1 r1 IH];
    intros rest2 i fuel d1 d2 Hlen H1 H2 Hi Hfuel Hd1 Hd2.
  - assert (Hi' : i = List.length es1).
    { assert (L := length_skipn i es1). rewrite H1 in L. cbn in L. lia. }
    destruct fuel as [|[|fuel]]; [cbn in Hfuel; lia | cbn in Hfuel; lia |].
    cbn [compare_chains]. subst i. rewrite Z.leb_refl.
    rewrite !GetEntry_past_the_end
      by (unfold GetEntries, output_tree; cbn [entries]; rewrite length_map; lia).
    replace (Z.of_nat (List.length es1) + 1 <=? Z.of_nat (List.length es1)) with false
      by (symmetry; apply Z.leb_gt; lia).
    cbn [verdict_from].
    destruct (check_round d1 d2) as [[]|e]; eexists; reflexivity.
  - destruct rest2 as [|e2 r2].
    { assert (L1 := length_skipn i es1). assert (L2 := length_skipn i es2).
      rewrite H1 in L1. rewrite H2 in L2. cbn in L1, L2. lia. }
    apply skipn_cons_nth_error in H1. destruct H1 as [N1 S1].
    apply skipn_cons_nth_error in H2. destruct H2 as [N2 S2].
    assert (Hlt : (i < List.length es1)%nat) by (apply nth_error_Some; congruence).
    destruct fuel as [|fuel]; [cbn in Hfuel; lia|].
    cbn [compare_chains].
    replace (Z.of_nat i <=? Z.of_nat (List.length es1)) with true
      by (symmetry; apply Z.leb_le; lia).
    rewrite (@GetEntry_stored p1 es1 i e1 d1 N1 Hd1), (@GetEntry_stored p2 es2 i e2 d2 N2 Hd2).
    cbn [verdict_from].
    destruct (check_round (view p1 e1) (view p2 e2)) as [[]|e] eqn:E.
    + replace (Z.of_nat i + 1) with (Z.of_nat (S i)) by lia.
      assert (Hf : (List.length r1 + 2 <= fuel)%nat) by (cbn [List.length] in Hfuel; lia).
      destruct (IH r2 (S i) fuel (view p1 e1) (view p2 e2) Hlen S1 S2 Hlt Hf
                  (view_spare_zero p1 e1) (view_spare_zero p2 e2)) as [cs Hcs].
      rewrite Hcs. eexists. reflexivity.
    + eexists. reflexivity.
Qed.

Lemma Check_verdict : forall dir p1 p2 es1 es2 u1 u2,
  Z.of_nat p1 + 4 <= 2 ^ 31 - 1 -> Z.of_nat p2 + 4 <= 2 ^ 31 - 1 ->
  List.length es1 = List.length es2 ->
  exists cs,
    Check (run_config dir) (output_files_of (run_config dir) p1 p2 es1 es2) u1 u2
    = Some (mkChecked cs
              (verdict_from p1 p2 es1 es2 (initial_holder p1 es1 u1) (initial_holder p2 es2 u2))).
Proof.
  intros dir p1 p2 es1 es2 u1 u2 Hp1 Hp2 Hl. unfold Check.
  assert (O1 : Open (output_files_of (run_config dir) p1 p2 es1 es2)
                 (rootFileNameParallel (run_config dir))
               = Some [("Parallelevaluation_mcmc", output_tree p1 es1)]).
  { unfold output_files_of. cbn [Open]. rewrite String.eqb_refl. reflexivity. }
  assert (O2 : Open (output_files_of (run_config dir) p1 p2 es1 es2)
                 (rootFileNameSerial (run_config dir))
               = Some [("Serialevaluation_mcmc", output_tree p2 es2)]).
  { unfold output_files_of, run_config, Default.
    cbn [rootFileNameParallel rootFileNameSerial Open].
    rewrite String.eqb_refl, append_eqb. reflexivity. }
  rewrite O1, O2. cbn [GetObject String.eqb Ascii.eqb Bool.eqb].
  rewrite !DataHolder_ctor_output_tree by assumption. cbn [data addresses].
  assert (G1 : GetEntries (output_tree p1 es1) = Z.of_nat (List.length es1))
    by (unfold GetEntries, output_tree; cbn [entries]; rewrite length_map; reflexivity).
  assert (G2 : GetEntries (output_tree p2 es2) = Z.of_nat (List.length es1))
    by (unfold GetEntries, output_tree; cbn [entries]; rewrite length_map, Hl; reflexivity).
  rewrite G1, G2, Z.eqb_refl. cbn [TEST_CHECK_EQUAL]. rewrite Nat2Z.id.
  fold (initial_holder p1 es1 u1) (initial_holder p2 es2 u2).
  apply (@compare_chains_verdict p1 p2 es1 es2 es1 es2 0);
    auto using initial_holder_spare_zero; lia.
Qed.

Lemma verdict_from_passes : forall p1 p2 es1 es2 d1 d2,
  List.length es1 = List.length es2 ->
  check_round d1 d2 = Returned tt ->
  (verdict_from p1 p2 es1 es2 d1 d2 = Returned tt
   <-> Forall2 (fun e1 e2 => check_round (view p1 e1) (view p2 e2) = Returned tt) es1 es2).
Proof.
  intros p1 p2 es1. induction es1 as [|e1 r1 IH]; intros es2 d1 d2 Hl Hd.
  - destruct es2; [|discriminate]. cbn [verdict_from]. split; [constructor | intros _; exact Hd].
  - destruct es2 as [|e2 r2]; [discriminate|]. cbn [verdict_from].
    destruct (check_round (view p1 e1) (view p2 e2)) as [[]|e] eqn:E.
    + rewrite (IH r2 (view p1 e1) (view p2 e2)) by (cbn in Hl; congruence).
      split; intro H; [constructor; assumption | inversion H; assumption].
    + split; [discriminate|]. intro H. inversion H; subst. congruence.
Qed.

Lemma check_round_serial_longer : forall p1 p2 e1 e2,
  (p1 < p2)%nat ->
  (check_round (view p1 e1) (view p2 e2) = Returned tt <-> agree_upto p1 e1 e2 = true).
Proof.
  intros p1 p2 e1 e2 Hlt. unfold check_round, agree_upto, entries_equal.
  cbn [view parameters fMCMCprob fMCMCNIterations fMCMCPhase fMCMCChain].
  rewrite check_parameters_forallb
    by (intros k Hk; apply in_seq in Hk; cbn [view parameters]; rewrite !padded_length in *; lia).
  cbn [view parameters]. rewrite padded_length.
  replace (seq 0 (S p1)) with (seq 0 p1 ++ [p1]) by (rewrite seq_S; reflexivity).
  rewrite forallb_app. cbn [forallb]. rewrite padded_spare, (@padded_nth p2 e2 p1 Hlt).
  rewrite forallb_agree
    with (g := fun k => (nth k (entry_Parameters e1) 0 =? nth k (entry_Parameters e2) 0)%float)
    by (intros k Hk; apply in_seq in Hk; rewrite !padded_nth by lia; reflexivity).
  rewrite andb_true_r.
  unfold TEST_CHECK_EQUAL, and_then.
  destruct (forallb _ (seq 0 p1)); cbn [andb]; [|split; discriminate].
  destruct (0 =? nth p1 (entry_Parameters e2) 0)%float;
    [|cbn [andb]; rewrite andb_false_r; split; discriminate].
  rewrite andb_true_r.
  destruct (entry_LogProbability e1 =? entry_LogProbability e2)%float; cbn [andb];
    [|split; discriminate].
  destruct (entry_Iteration e1 =? entry_Iteration e2); cbn [andb]; [|split; discriminate].
  destruct (entry_Phase e1 =? entry_Phase e2); cbn [andb]; [|split; discriminate].
  destruct (entry_Chain e1 =? entry_Chain e2); split; (reflexivity || discriminate).
Qed.

(** When the tree of the serial run has more parameter branches than the
    [p1] of the parallel tree, [Check] on non-empty trees of equal length
    passes exactly when every pair of records agrees in the first [p1]
    parameters and the four scalars and the serial [Parameter p1] equals
    0.0, the spare element of the parallel vector.  The serial parameters
    beyond that index are never compared. *)
Theorem Check_serial_has_more_parameters :
  forall (dir : string) (p1 p2 : nat) (parallel serial : list Entry) (u1 u2 : DataHolder),
    Z.of_nat p2 + 4 <= 2 ^ 31 - 1 ->
    (p1 < p2)%nat ->
    List.length parallel = List.length serial ->
    parallel <> [] ->
    exists c,
      Check (run_config dir) (output_files_of (run_config dir) p1 p2 parallel serial) u1 u2
        = Some c
      /\ (result c = Returned tt
          <-> Forall2 (fun e1 e2 => agree_upto p1 e1 e2 = true) parallel serial).
Proof.
  intros dir p1 p2 parallel serial u1 u2 Hp2 Hlt Hl Hne.
  destruct (@Check_verdict dir p1 p2 parallel serial u1 u2) as [cs Hc]; try assumption; [lia|].
  eexists. split; [exact Hc|]. cbn [result].
  destruct parallel as [|e1 r1]; [congruence|].
  destruct serial as [|e2 r2]; [discriminate|].
  cbn [verdict_from].
  assert (F : forall l1 l2,
             Forall2 (fun e1 e2 => check_round (view p1 e1) (view p2 e2) = Returned tt) l1 l2
             <-> Forall2 (fun e1 e2 => agree_upto p1 e1 e2 = true) l1 l2).
  { intros l1 l2. split; intro H; induction H; constructor; try assumption;
      apply (@check_round_serial_longer p1 p2 x y Hlt); assumption. }
  destruct (check_round (view p1 e1) (view p2 e2)) as [[]|e] eqn:E.
  - rewrite (@verdict_from_passes p1 p2 r1 r2 (view p1 e1) (view p2 e2))
      by (cbn in Hl; congruence || exact E).
    rewrite F. split; intro H.
    + constructor; [|exact H]. apply (@check_round_serial_longer p1 p2 e1 e2 Hlt). exact E.
    + inversion H; assumption.
  - split; [discriminate|]. intro H. inversion H; subst.
    apply (@check_round_serial_longer p1 p2 e1 e2 Hlt) in H3. congruence.
Qed.

Lemma Check_serial_has_more_parameters_witness :
  exists c,
    Check (run_config "/tmp/")
      (output_files_of (run_config "/tmp/") 1 2 [sample_entry] [sample_entry])
      blank_holder blank_holder = Some c
    /\ (result c = Returned tt
        <-> Forall2 (fun e1 e2 => agree_upto 1 e1 e2 = true) [sample_entry] [sample_entry]).
Proof.
  apply (@Check_serial_has_more_parameters "/tmp/" 1 2 [sample_entry] [sample_entry]
           blank_holder blank_holder).
  - vm_compute. discriminate.
  - apply Nat.lt_succ_diag_r.
  - reflexivity.
  - discriminate.
Defined.

Lemma Check_same_files : forall config fs fs' u1 u2,
  Open fs (rootFileNameParallel config) = Open fs' (rootFileNameParallel config) ->
  Open fs (rootFileNameSerial config) = Open fs' (rootFileNameSerial config) ->
  Check config fs u1 u2 = Check config fs' u1 u2.
Proof. intros config fs fs' u1 u2 H1 H2. unfold Check. rewrite H1, H2. reflexivity. Qed.

Lemma CreateOutput_returns : forall engine config parallelization fs st,
  Z.of_nat (List.length (real_time_array st)) < 2 ^ 64 - 1 ->
  exists process,
    CreateOutput engine config parallelization (fs, st)
    = Returned
        (((if parallelization then rootFileNameParallel config else rootFileNameSerial config),
          fst (engine (mkRequest (if parallelization then num_chains config else 1)
                         (if parallelization then "Parallel evaluation"
                          else "Serial evaluation")
                         (num_parameters config) (lag config) (num_iterations config)
                         (num_chains config) seed))) :: fs,
         process)
    /\ List.length (real_time_array process) = S (List.length (real_time_array st)).
Proof.
  intros engine config parallelization fs st H. unfold CreateOutput.
  destruct (engine _) as [file t]. cbn [fst snd].
  rewrite PrintValues_returns by exact H.
  eexists. split; [reflexivity|]. cbn [real_time_array].
  rewrite length_app. cbn [List.length]. lia.
Qed.

(** The whole test as [ParallelTest::run] starts it, on an engine that
    leaves the serial and the parallel tree with [p] parameters under the
    names [Check] looks for: whatever files were there before and whatever
    the holders contain at first, the test passes if and only if the two
    runs stored the same number of records and every pair of records
    agrees under [==] in all compared fields. *)
Theorem RunComparison_passes_iff_runs_agree :
  forall (MarginalizeAll : Request -> TFile * float) (dir : string) (p : nat)
         (parallel serial : list Entry) (fs : FileSystem) (st : Process)
         (u1 u2 : DataHolder),
    Z.of_nat p + 4 <= 2 ^ 31 - 1 ->
    Z.of_nat (List.length (real_time_array st)) < 2 ^ 64 - 2 ->
    parallel <> [] ->
    fst (MarginalizeAll (mkRequest 1 "Serial evaluation" 1 50000 100 4 11))
      = [("Serialevaluation_mcmc", output_tree p serial)] ->
    fst (MarginalizeAll (mkRequest 4 "Parallel evaluation" 1 50000 100 4 11))
      = [("Parallelevaluation_mcmc", output_tree p parallel)] ->
    exists r,
      RunComparison MarginalizeAll (run_config dir) (fs, st) u1 u2 = Some r
      /\ ((exists process, r = Returned process)
          <-> Forall2 (fun e1 e2 => entries_equal p e1 e2 = true) parallel serial).
Proof.
  intros engine dir p parallel serial fs st u1 u2 Hp Hsize Hne Hser Hpar.
  unfold RunComparison.
  destruct (@CreateOutput_returns engine (run_config dir) false fs st ltac:(lia))
    as [pr1 [C1 L1]].
  rewrite C1.
  match goal with
  | |- context [CreateOutput engine (run_config dir) true (?files, pr1)] =>
      destruct (@CreateOutput_returns engine (run_config dir) true files pr1 ltac:(lia))
        as [pr2 [C2 L2]]
  end.
  match goal with
  | |- context [CreateOutput ?a ?b true ?d] =>
      match type of C2 with
      | _ = ?rhs => assert (E : CreateOutput a b true d = rhs) by exact C2; rewrite E
      end
  end.
  cbn [fst snd].
  destruct (Open_output_files dir p parallel serial) as [O1 O2]. cbn zeta in O1, O2.
  rewrite (@Check_same_files (run_config dir) _
             (output_files (run_config dir) p parallel serial) u1 u2).
  - destruct (@Check_output_files_verdict dir p parallel serial u1 u2 Hp Hne) as [c [Hc V]].
    rewrite Hc. eexists. split; [reflexivity|]. rewrite <- V.
    destruct (result c) as [[]|e]; split.
    + reflexivity.
    + intros _. eexists. reflexivity.
    + intros [process H]. discriminate H.
    + discriminate.
  - rewrite O1. cbn [Open]. rewrite String.eqb_refl.
    change (fst (engine (mkRequest 4 "Parallel evaluation" 1 50000 100 4 11))
            = [("Parallelevaluation_mcmc", output_tree p parallel)]) in Hpar.
    f_equal. exact Hpar.
  - rewrite O2. unfold run_config, Default.
    cbn [rootFileNameParallel rootFileNameSerial Open num_parameters lag num_iterations
         num_chains num_entries plot].
    rewrite append_eqb. cbn [String.eqb Ascii.eqb Bool.eqb]. rewrite String.eqb_refl.
    f_equal. exact Hser.
Qed.

Lemma RunComparison_passes_iff_runs_agree_witness :
  exists r,
    RunComparison sample_engine (run_config "/tmp/") ([], process_start)
      blank_holder blank_holder = Some r
    /\ ((exists process, r = Returned process)
        <-> Forall2 (fun e1 e2 => entries_equal 1 e1 e2 = true)
              [sample_entry] [sample_entry]).
Proof.
  apply (@RunComparison_passes_iff_runs_agree sample_engine "/tmp/" 1
           [sample_entry] [sample_entry] [] process_start blank_holder blank_holder).
  - vm_compute. discriminate.
  - vm_compute. reflexivity.
  - discriminate.
  - reflexivity.
  - reflexivity.
Defined.

End parallel_TEST.
